(** * Falcon downloader: test report generator and integration harness

    A shallow embedding of the two Python scripts of the repository,

    - [scripts/generate_test_report.py] (module [Report]): reads the JUnit
      style XML artifacts of a results directory, sums the declared counts
      and renders one HTML document;
    - [test_download_integration.py] (module [Harness]): drives the
      downloader executable through three scenarios and prints a summary.

    Python integers are [Z], Python floats are IEEE binary64 ([float] of
    the Floats library), strings and paths are [string].  Library calls
    whose code is not part of the repository (the XML reader, [int], [float],
    the [.2f] formatter, [glob.glob], the calls that touch the file system
    of the reporter, the downloader executable) enter as parameters. *)

From Stdlib Require Import ZArith String Ascii List Floats Lia.
From Stdlib Require Import DecimalString DecimalZ DecimalPos.
From stdpp Require Import gmap strings list.

Open Scope Z_scope.
Open Scope string_scope.

(** ** Shared helpers *)

(** [str(n)] for a Python [int]. *)
Definition str_int (z : Z) : string := NilZero.string_of_int (Z.to_int z).

(** [s.endswith(suf)]. *)
Definition ends_with (suf s : string) : bool :=
  let n := String.length suf in
  let m := String.length s in
  (n <=? m)%nat && String.eqb (substring (m - n) n s) suf.

(** The value of a Python expression that may raise: [Err] carries [str(e)]. *)
Inductive res (A : Type) : Type :=
| Ok (a : A)
| Err (msg : string).
Arguments Ok {A} a.
Arguments Err {A} msg.

#[global] Instance res_ret : MRet res := fun A a => Ok a.
#[global] Instance res_bind : MBind res := fun A B f r =>
  match r with
  | Ok a => f a
  | Err msg => Err msg
  end.

(** A [for] loop whose body may raise, threading the loop's variables. *)
Fixpoint res_fold {S B : Type} (f : S -> B -> res S) (l : list B) (s : S) : res S :=
  match l with
  | [] => Ok s
  | b :: l' => s' ← f s b; res_fold f l' s'
  end.

Module Report.

(** *** The element tree of [xml.etree.ElementTree] *)

#[warnings="-register-all"]
Inductive Element : Type :=
  Elem (tag : string) (attrib : gmap string string) (children : list Element).

Definition tag (e : Element) : string := let 'Elem t _ _ := e in t.
Definition attrib (e : Element) : gmap string string := let 'Elem _ a _ := e in a.
Definition children (e : Element) : list Element := let 'Elem _ _ c := e in c.

(** [e.find(t)]: the first direct child with tag [t]. *)
Definition find (e : Element) (t : string) : option Element :=
  List.find (fun c => String.eqb (tag c) t) (children e).

(** [e.findall(t)]: the direct children with tag [t], in document order. *)
Definition findall (e : Element) (t : string) : list Element :=
  List.filter (fun c => String.eqb (tag c) t) (children e).

(** [e.get(k)]. *)
Definition get (e : Element) (k : string) : option string := attrib e !! k.

(** *** Parsed records: the dicts built by [parse_xml_file] *)

Inductive Status : Type := PASS | FAIL | ERROR.

#[global] Instance Status_eq_dec : EqDecision Status.
Proof. solve_decision. Defined.

Record TestCase : Type := mkCase {
  c_name : string;
  c_classname : string;
  c_time : float;
  c_status : Status;
  c_message : string
}.

Record Suite : Type := mkSuite {
  s_name : string;
  s_tests : Z;
  s_failures : Z;
  s_errors : Z;
  s_time : float;
  s_test_cases : list TestCase
}.

(** [os.path.basename]: what follows the last slash. *)
Fixpoint basename_from (acc p : string) : string :=
  match p with
  | EmptyString => acc
  | String c r =>
      if Ascii.eqb c "/" then basename_from "" r
      else basename_from (acc +:+ String c "") r
  end.
Definition basename (p : string) : string := basename_from "" p.

(** [os.path.join(a, b)] for a relative [b]. *)
Definition path_join (a b : string) : string :=
  if String.eqb a "" then b
  else if ends_with "/" a then a +:+ b
  else a +:+ "/" +:+ b.

(** [os.path.dirname(p)]: [p] up to its last slash, then without the
    slashes at its end unless it consists of slashes only.  The work is
    done on the reversed path. *)
Definition is_slash (c : ascii) : bool := Ascii.eqb c "/".

Fixpoint drop_while (f : ascii -> bool) (l : list ascii) : list ascii :=
  match l with
  | [] => []
  | c :: r => if f c then drop_while f r else l
  end.

Definition dirname (p : string) : string :=
  let head := drop_while (fun c => negb (is_slash c)) (rev (list_ascii_of_string p)) in
  if forallb is_slash head then string_of_list_ascii (rev head)
  else string_of_list_ascii (rev (drop_while is_slash head)).

(** What the reporter takes from the machine it runs on, each call with
    the result it has when the script makes it. *)
Record Platform : Type := mkPlatform {
  (* [os.path.isdir(d)] *)
  isdir : string -> bool;
  (* [os.makedirs(d, exist_ok=True)]: the message of the exception it
     raises, if any *)
  makedirs : string -> option string;
  (* [glob.glob(pattern)]: the paths that match, in the order given *)
  glob : string -> list string;
  (* [ET.parse(f).getroot()]: the tree, or the message of the exception *)
  et_parse : string -> res Element;
  (* [with open(f, 'w', encoding='utf-8') as fh: fh.write(text)]: the
     message of the exception raised, if any *)
  write_text : string -> option string
}.

Section Reporter.

(** [int(s)] and [float(s)] on an attribute's text. *)
Variable py_int : string -> res Z.
Variable py_float : string -> res float.

(** [int(e.get(k, 0))]: the default is the integer [0], not a string. *)
Definition int_attr (e : Element) (k : string) : res Z :=
  match get e k with
  | Some s => py_int s
  | None => Ok 0
  end.

(** [float(e.get(k, 0))]. *)
Definition float_attr (e : Element) (k : string) : res float :=
  match get e k with
  | Some s => py_float s
  | None => Ok 0%float
  end.

(** [status] and [failure_msg] after the two marker tests of the loop
    body (lines 34-44): the [error] test comes second and overwrites. *)
Definition case_status (test_case : Element) : Status * string :=
  let status := PASS in
  let failure_msg := "" in
  let '(status, failure_msg) :=
    match find test_case "failure" with
    | Some failure => (FAIL, default "" (get failure "message"))
    | None => (status, failure_msg)
    end in
  match find test_case "error" with
  | Some error => (ERROR, default "" (get error "message"))
  | None => (status, failure_msg)
  end.

(** One iteration of [for test_case in test_suite.findall('testcase')].
    The loop's variables are [time] and [test_cases]: line 32 assigns the
    same local [time] that line 26 set from the suite. *)
Definition case_step (st : float * list TestCase) (test_case : Element)
  : res (float * list TestCase) :=
  let '(_, test_cases) := st in
  let name := default "" (get test_case "name") in
  let classname := default "" (get test_case "classname") in
  time ← float_attr test_case "time";
  let '(status, failure_msg) := case_status test_case in
  Ok (time, (test_cases ++ [mkCase name classname time status failure_msg])%list).

(** The body of the [try] of [parse_xml_file], after [ET.parse] gave [root]. *)
Definition parse_root (xml_file : string) (root : Element) : res (option Suite) :=
  match find root "testsuite" with
  | None => Ok None
  | Some test_suite =>
      tests ← int_attr test_suite "tests";
      failures ← int_attr test_suite "failures";
      errors ← int_attr test_suite "errors";
      time ← float_attr test_suite "time";
      '(time, test_cases) ← res_fold case_step (findall test_suite "testcase") (time, []);
      Ok (Some (mkSuite (default (basename xml_file) (get test_suite "name"))
                        tests failures errors time test_cases))
  end.

(** [parse_xml_file(xml_file)]: [doc] is what [ET.parse(xml_file)] does
    on the file, a tree or an exception.  The result is the lines printed
    and the returned dict, [None] for Python's [None]. *)
Definition parse_xml_file (xml_file : string) (doc : res Element)
  : list string * option Suite :=
  match root ← doc; parse_root xml_file root with
  | Ok r => ([], r)
  | Err e => (["Error parsing " +:+ xml_file +:+ ": " +:+ e], None)
  end.

(** *** The report document

    [html_content] is one string grown by [+=].  It is kept here as the
    sequence of the template instances appended, each with the values
    its f-string interpolates, in source order; the constant markup and
    style sheet between the slots carry no data and are left out. *)

(** [format(x, '.Nf')]. *)
Variable format_f : nat -> float -> string.

Definition status_str (st : Status) : string :=
  match st with
  | PASS => "PASS"
  | FAIL => "FAIL"
  | ERROR => "ERROR"
  end.

Inductive Frag : Type :=
| Head (total passed failed errored elapsed : string)      (* lines 92-227 *)
| Row (name tests passed failed errored elapsed : string)  (* lines 231-239 *)
| TableEnd                                                 (* lines 241-246 *)
| SuiteHeading (name : string)                             (* line 251 *)
| CaseDiv (css_class test status elapsed : string) (message : option string)
                                                           (* lines 255-261 *)
| Foot (timestamp : string).                               (* lines 263-271 *)

(** The variables of the first loop (lines 76-89) and what it printed. *)
Record Totals : Type := mkTotals {
  printed : list string;
  all_results : list Suite;
  total_tests : Z;
  total_failures : Z;
  total_errors : Z;
  total_time : float
}.

Definition totals0 : Totals := mkTotals [] [] 0 0 0 0%float.

(** Lines 83-89.  A returned dict has six keys, so [if result:] is the
    test against [None]. *)
Definition collect (t : Totals) (file : string * res Element) : Totals :=
  let '(out, result) := parse_xml_file file.1 file.2 in
  match result with
  | Some result =>
      mkTotals (printed t ++ out) (all_results t ++ [result])
               (total_tests t + s_tests result)
               (total_failures t + s_failures result)
               (total_errors t + s_errors result)
               (total_time t + s_time result)%float
  | None =>
      mkTotals (printed t ++ out) (all_results t) (total_tests t)
               (total_failures t) (total_errors t) (total_time t)
  end%list.

(** Lines 229-239. *)
Definition add_row (html_content : list Frag) (result : Suite) : list Frag :=
  let passed := s_tests result - s_failures result - s_errors result in
  (html_content ++
    [Row (s_name result) (str_int (s_tests result)) (str_int passed)
         (str_int (s_failures result)) (str_int (s_errors result))
         (format_f 2 (s_time result))])%list.

(** Lines 252-261. *)
Definition add_case (html_content : list Frag) (test_case : TestCase) : list Frag :=
  if negb (bool_decide (c_status test_case = PASS)) then
    let css_class := if bool_decide (c_status test_case = FAIL) then "fail" else "error" in
    (html_content ++
      [CaseDiv css_class
               (c_classname test_case +:+ "." +:+ c_name test_case)
               (status_str (c_status test_case))
               (format_f 3 (c_time test_case))
               (if String.eqb (c_message test_case) "" then None
                else Some (c_message test_case))])%list
  else html_content.

(** Lines 249-261. *)
Definition add_details (html_content : list Frag) (result : Suite) : list Frag :=
  if (0 <? s_failures result)%Z || (0 <? s_errors result)%Z then
    fold_left add_case (s_test_cases result)
              (html_content ++ [SuiteHeading (s_name result)])%list
  else html_content.

(** Lines 92-271: the document for the first loop's variables. *)
Definition render (t : Totals) (now : string) : list Frag :=
  let html_content :=
    [Head (str_int (total_tests t))
          (str_int (total_tests t - total_failures t - total_errors t))
          (str_int (total_failures t))
          (str_int (total_errors t))
          (format_f 2 (total_time t))] in
  let html_content := fold_left add_row (all_results t) html_content in
  let html_content := (html_content ++ [TableEnd])%list in
  let html_content := fold_left add_details (all_results t) html_content in
  (html_content ++ [Foot now])%list.

(** What one call leaves behind: the lines printed (on a standard output
    that takes every character), the file written, if any, with its
    path, and the message of the exception that ended the call, if any. *)
Record Effect : Type := mkEffect {
  stdout : list string;
  written : option (string * list Frag);
  raised : option string
}.

Variable P : Platform.

(** The files of the first loop, each with what [ET.parse] makes of it
    when [parse_xml_file] reaches it. *)
Definition load (xml_files : list string) : list (string * res Element) :=
  (fun xml_file => (xml_file, et_parse P xml_file)) <$> xml_files.

(** [generate_html_report(results_dir, output_file)]; [now] is the
    formatted [datetime.now()]. *)
Definition generate_html_report (results_dir output_file now : string) : Effect :=
  let xml_files := glob P (path_join results_dir "*.xml") in
  match xml_files with
  | [] => mkEffect ["No XML files found in " +:+ results_dir] None None
  | _ :: _ =>
      let t := fold_left collect (load xml_files) totals0 in
      let html_content := render t now in
      match write_text P output_file with
      | Some e => mkEffect (printed t) None (Some e)
      | None =>
          mkEffect (printed t ++ ["HTML报告已生成: " +:+ output_file])%list
                   (Some (output_file, html_content)) None
      end
  end.

(** [main()] with [sys.argv = argv].  The result pairs the effect with
    the exit status of the process: [1] after [sys.exit(1)] on the two
    argument errors, [1] when an exception leaves [main], [0] when
    [main] returns. *)
Definition main (argv : list string) (now : string) : Effect * Z :=
  match argv with
  | [_; results_dir] =>
      if negb (isdir P results_dir) then
        (mkEffect ["错误: 目录不存在 - " +:+ results_dir] None None, 1)
      else
        let output_file :=
          path_join (path_join (path_join results_dir "..") "test_reports")
                    "test_report.html" in
        match makedirs P (dirname output_file) with
        | Some e => (mkEffect [] None (Some e), 1)
        | None =>
            let effect := generate_html_report results_dir output_file now in
            (effect, match raised effect with Some _ => 1 | None => 0 end)
        end
  | _ => (mkEffect ["用法: python generate_test_report.py <测试结果目录>"] None None, 1)
  end.

(** *** The document section by section

    What each loop of the renderer contributes for one suite, written
    without the accumulator; the statements below compare the loops of
    [render] with these. *)

Definition row_of (result : Suite) : Frag :=
  Row (s_name result) (str_int (s_tests result))
      (str_int (s_tests result - s_failures result - s_errors result))
      (str_int (s_failures result)) (str_int (s_errors result))
      (format_f 2 (s_time result)).

Definition not_pass (test_case : TestCase) : bool :=
  negb (bool_decide (c_status test_case = PASS)).

Definition case_div (test_case : TestCase) : Frag :=
  CaseDiv (if bool_decide (c_status test_case = FAIL) then "fail" else "error")
          (c_classname test_case +:+ "." +:+ c_name test_case)
          (status_str (c_status test_case))
          (format_f 3 (c_time test_case))
          (if String.eqb (c_message test_case) "" then None
           else Some (c_message test_case)).

Definition detail_entry (result : Suite) : list Frag :=
  if (0 <? s_failures result)%Z || (0 <? s_errors result)%Z then
    SuiteHeading (s_name result)
      :: (case_div <$> List.filter not_pass (s_test_cases result))
  else [].

Definition is_row (f : Frag) : bool :=
  match f with Row _ _ _ _ _ _ => true | _ => false end.

Definition is_detail (f : Frag) : bool :=
  match f with SuiteHeading _ | CaseDiv _ _ _ _ _ => true | _ => false end.

(** A case record that mirrors a case element: the element's name and
    class name (empty when absent), its converted time, and the status
    and message its markers give. *)
Definition mirrors (test_case : Element) (c : TestCase) : Prop :=
  c_name c = default "" (get test_case "name")
  /\ c_classname c = default "" (get test_case "classname")
  /\ float_attr test_case "time" = Ok (c_time c)
  /\ (c_status c, c_message c) = case_status test_case.

(** The suite a file yields, if any. *)
Definition suite_of (file : string * res Element) : option Suite :=
  (parse_xml_file file.1 file.2).2.

(** The body of the [try] of [parse_xml_file] on a file: the dict, [None]
    when the root has no suite, or the exception. *)
Definition try_body (file : string * res Element) : res (option Suite) :=
  root ← file.2; parse_root file.1 root.

(** A file is malformed when reading it raises, parseable when reading it
    gives a suite. *)
Definition malformed (file : string * res Element) : bool :=
  match try_body file with Err _ => true | Ok _ => false end.

Definition parseable (file : string * res Element) : option Suite :=
  match try_body file with Ok (Some s) => Some s | _ => None end.

(** The line logged for a malformed file. *)
Definition logged (file : string * res Element) : list string :=
  match try_body file with
  | Err e => ["Error parsing " +:+ file.1 +:+ ": " +:+ e]
  | Ok _ => []
  end.

End Reporter.

Definition sumZ (l : list Z) : Z := foldr Z.add 0 l.

Definition sumF (l : list float) : float := fold_left PrimFloat.add l 0%float.

(** *** A reader for the literals used in the examples below

    [int] and [float] accept more than this (blanks, underscores, exponents);
    on an optional minus sign followed by decimal digits, [int] gives the
    number, and [float] on decimal digits of a number below [2^53] gives
    it exactly. *)

Definition digit_val (c : ascii) : option Z :=
  let n := Z.of_nat (nat_of_ascii c) in
  if (48 <=? n)%Z && (n <=? 57)%Z then Some (n - 48) else None.

Fixpoint read_digits (acc : Z) (s : string) : option Z :=
  match s with
  | EmptyString => Some acc
  | String c r =>
      match digit_val c with
      | Some d => read_digits (10 * acc + d) r
      | None => None
      end
  end.

Definition read_nat (s : string) : option Z :=
  match s with
  | EmptyString => None
  | _ => read_digits 0 s
  end.

Definition read_int (s : string) : res Z :=
  let r :=
    match s with
    | String "-" r => Z.opp <$> read_nat r
    | _ => read_nat s
    end in
  match r with
  | Some z => Ok z
  | None => Err ("invalid literal for int() with base 10: '" +:+ s +:+ "'")
  end.

Definition read_float (s : string) : res float :=
  match read_nat s with
  | Some z => Ok (PrimFloat.of_uint63 (Uint63.of_Z z))
  | None => Err ("could not convert string to float: '" +:+ s +:+ "'")
  end.

(** *** Sample artifacts *)

Definition attrs (l : list (string * string)) : gmap string string := list_to_map l.

(** [<testsuites><testsuite name="s" tests="1" failures="0" errors="0"
    time="10"><testcase name="t" classname="c" time="1"/></testsuite>
    </testsuites>] *)
Definition one_case_suite : Element :=
  Elem "testsuites" ∅
    [Elem "testsuite"
       (attrs [("name", "s"); ("tests", "1"); ("failures", "0"); ("errors", "0");
               ("time", "10")])
       [Elem "testcase" (attrs [("name", "t"); ("classname", "c"); ("time", "1")]) []]].

(** [<testcase name="u" classname="c" time="2"><failure message="boom"/>
    <error message="bang"/></testcase>] *)
Definition both_markers_case : Element :=
  Elem "testcase" (attrs [("name", "u"); ("classname", "c"); ("time", "2")])
    [Elem "failure" (attrs [("message", "boom")]) [];
     Elem "error" (attrs [("message", "bang")]) []].

(** [<testsuites><testsuite name="n" tests="2" failures="1" errors="-1"
    time="0"/></testsuites>] *)
Definition offsetting_suite : Element :=
  Elem "testsuites" ∅
    [Elem "testsuite"
       (attrs [("name", "n"); ("tests", "2"); ("failures", "1"); ("errors", "-1");
               ("time", "0")])
       []].

(** Whether a file name contains a slash. *)
Fixpoint has_slash (s : string) : bool :=
  match s with
  | EmptyString => false
  | String c r => Ascii.eqb c "/" || has_slash r
  end.

(** [<testsuite name="root" tests="1"><testcase name="t"/></testsuite>]: an
    artifact whose root element is the suite itself. *)
Definition root_is_suite : Element :=
  Elem "testsuite" (attrs [("name", "root"); ("tests", "1")])
    [Elem "testcase" (attrs [("name", "t")]) []].

(** [<testsuites><testsuite tests="3" failures="1"/></testsuites>]: a suite
    without a [name] attribute. *)
Definition unnamed_suite : Element :=
  Elem "testsuites" ∅ [Elem "testsuite" (attrs [("tests", "3"); ("failures", "1")]) []].

(** A formatter for the examples: the statements never look inside it. *)
Definition no_format (digits : nat) (x : float) : string := "".

(** A machine for the examples: [results] is a directory, the pattern
    [results/*.xml] matches the paths of [files], each read as given, and
    the report directory and the report file can be written. *)
Definition results_with (files : list (string * res Element)) : Platform :=
  mkPlatform
    (fun d => String.eqb d "results")
    (fun _ => None)
    (fun pattern => if String.eqb pattern "results/*.xml" then files.*1 else [])
    (fun xml_file =>
       match List.find (fun f => String.eqb f.1 xml_file) files with
       | Some f => f.2
       | None => Err ("[Errno 2] No such file or directory: '" +:+ xml_file +:+ "'")
       end)
    (fun _ => None).

(** The same machine with a regular file where the report directory
    should be: [os.makedirs] raises. *)
Definition reports_blocked (files : list (string * res Element)) : Platform :=
  mkPlatform
    (isdir (results_with files))
    (fun d => Some ("[Errno 17] File exists: '" +:+ d +:+ "'"))
    (glob (results_with files))
    (et_parse (results_with files))
    (write_text (results_with files)).

End Report.

Module Harness.

(** *** The world the harness runs in *)

(** A directory entry as the harness can observe it: a regular file with
    its bytes, or a directory with the size [os.path.getsize] reports. *)
Inductive node : Type :=
| File (content : string)
| Directory (st_size : Z).

(** The exceptions that occur: [SystemExit] is not an [Exception]. *)
Inductive exn : Type :=
| TimeoutExpired
| OSError (msg : string)
| UnicodeDecodeError (msg : string)
| SystemExit (code : Z).

(** How a call ends: with a value, with an exception, or never
    ([proc.wait()] has no timeout). *)
Inductive outcome (A : Type) : Type :=
| Ret (a : A)
| Raise (e : exn)
| Hang.
Arguments Ret {A} a.
Arguments Raise {A} e.
Arguments Hang {A}.

(** What [subprocess.run(cmd, capture_output=True, text=True, timeout=30)]
    meets: the child ran to its end and its captured output is text, the
    child overran the timeout and was killed, the child could not be
    started, or the child ran to its end and its captured output is not
    text in the locale's encoding (with [text=True] the output is decoded
    before the result is built, whatever the exit status). *)
Inductive run_result : Type :=
| Completed (returncode : Z) (out err : string)
| TimedOut
| LaunchFailed (msg : string)
| Undecodable (msg : string).

(** What lines 105-112 meet ([Popen], [sleep(0.2)], [terminate], [wait]):
    the child was started and has exited, could not be started, or was
    started and does not exit. *)
Inductive spawn_result : Type :=
| Stopped
| SpawnFailed (msg : string)
| NeverExits.

Record CompletedProcess : Type := mkCompleted {
  returncode : Z;
  cp_stdout : string;
  cp_stderr : string
}.

(** Paths are resolved against the working directory: a path is its list
    of components below the root. *)
Fixpoint split_slash (cur p : string) : list string :=
  match p with
  | EmptyString => [cur]
  | String c r =>
      if Ascii.eqb c "/" then cur :: split_slash "" r
      else split_slash (cur +:+ String c "") r
  end.

Definition components (p : string) : list string :=
  List.filter (fun s => negb (String.eqb s "") && negb (String.eqb s "."))
              (split_slash "" p).

Definition nl : string := String "010"%char "".
Definition dq : string := String "034"%char "".

(** [needle in s]. *)
Definition contains (needle s : string) : bool :=
  match String.index 0 needle s with
  | Some _ => true
  | None => false
  end.

Fixpoint spaces (n : nat) : string :=
  match n with
  | O => ""
  | S n' => String " " (spaces n')
  end.

(** [f"{s:25}"]: left-justified in a field of [n] characters. *)
Definition ljust (n : nat) (s : string) : string :=
  s +:+ spaces (n - String.length s).

Section Scenarios.

(** The state of everything outside the harness: the downloader, the
    network, the clock. *)
Variable Env : Type.

(** What the harness takes from the machine it runs on.  The downloader
    executable is a capability: given the command line, the working
    directory, the files and the outside state, a run gives its result
    with the files and the outside state it leaves.  [decode_text] is the
    decoding of a file's bytes that [open(p, 'r').read()] does in the
    locale's encoding: the text, or the message of the
    [UnicodeDecodeError]. *)
Record Downloader : Type := mkDownloader {
  run_child :
    list string -> list string -> gmap (list string) node -> Env ->
    run_result * gmap (list string) node * Env;
  interrupt_child :
    list string -> list string -> gmap (list string) node -> Env ->
    spawn_result * gmap (list string) node * Env;
  decode_text : string -> res string
}.

Variable D : Downloader.

Record World : Type := mkWorld {
  cwd : list string;
  fs : gmap (list string) node;
  env : Env;
  stdout : list string;            (* one entry per [print] *)
  calls : list (list string)       (* the command lines launched, in order *)
}.

Definition M (A : Type) : Type := World -> outcome A * World.

#[global] Instance M_ret : MRet M := fun A a w => (Ret a, w).
#[global] Instance M_bind : MBind M := fun A B f m w =>
  match m w with
  | (Ret a, w') => f a w'
  | (Raise e, w') => (Raise e, w')
  | (Hang, w') => (Hang, w')
  end.

Definition raise {A : Type} (e : exn) : M A := fun w => (Raise e, w).

(** [try: body / except ...: handler]: [handler e] is [None] when no
    clause matches [e]. *)
Definition try_except {A : Type} (body : M A) (handler : exn -> option (M A)) : M A :=
  fun w =>
    match body w with
    | (Raise e, w') =>
        match handler e with
        | Some h => h w'
        | None => (Raise e, w')
        end
    | r => r
    end.

(** [try: body / finally: cleanup]: the cleanup runs however the body
    ends, and an exception of the cleanup replaces the body's result. *)
Definition try_finally {A : Type} (body : M A) (cleanup : M unit) : M A :=
  fun w =>
    match body w with
    | (Hang, w') => (Hang, w')
    | (r, w') =>
        match cleanup w' with
        | (Ret _, w'') => (r, w'')
        | (Raise e, w'') => (Raise e, w'')
        | (Hang, w'') => (Hang, w'')
        end
    end.

(** A [for] loop threading its variable. *)
Fixpoint for_each {S B : Type} (body : S -> B -> M S) (l : list B) (s : S) : M S :=
  match l with
  | [] => mret s
  | b :: l' => s' ← body s b; for_each body l' s'
  end.

Definition resolve (w : World) (p : string) : list string :=
  (cwd w ++ components p)%list.

(** [print(s)], on a standard output that takes every character. *)
Definition print (s : string) : M unit := fun w =>
  (Ret tt, mkWorld (cwd w) (fs w) (env w) (stdout w ++ [s])%list (calls w)).

Definition os_path_exists (p : string) : M bool := fun w =>
  (Ret (bool_decide (is_Some (fs w !! resolve w p))), w).

Definition os_path_getsize (p : string) : M Z := fun w =>
  match fs w !! resolve w p with
  | Some (File content) => (Ret (Z.of_nat (String.length content)), w)
  | Some (Directory n) => (Ret n, w)
  | None => (Raise (OSError "No such file or directory"), w)
  end.

(** [with open(p, 'r') as f: f.read()]. *)
Definition read_text (p : string) : M string := fun w =>
  match fs w !! resolve w p with
  | Some (File content) =>
      match decode_text D content with
      | Ok text => (Ret text, w)
      | Err msg => (Raise (UnicodeDecodeError msg), w)
      end
  | Some (Directory _) => (Raise (OSError "Is a directory"), w)
  | None => (Raise (OSError "No such file or directory"), w)
  end.

Definition os_remove (p : string) : M unit := fun w =>
  match fs w !! resolve w p with
  | Some (File _) =>
      (Ret tt, mkWorld (cwd w) (delete (resolve w p) (fs w)) (env w) (stdout w) (calls w))
  | Some (Directory _) => (Raise (OSError "Is a directory"), w)
  | None => (Raise (OSError "No such file or directory"), w)
  end.

Definition os_chdir (p : string) : M unit := fun w =>
  match fs w !! resolve w p with
  | Some (Directory _) =>
      (Ret tt, mkWorld (resolve w p) (fs w) (env w) (stdout w) (calls w))
  | Some (File _) => (Raise (OSError "Not a directory"), w)
  | None => (Raise (OSError "No such file or directory"), w)
  end.

(** [os.path.basename(os.getcwd())]. *)
Definition cwd_basename : M string := fun w => (Ret (List.last (cwd w) ""), w).

Definition sys_exit {A : Type} (code : Z) : M A := raise (SystemExit code).

Definition subprocess_run (cmd : list string) : M CompletedProcess := fun w =>
  let '(r, fs', env') := run_child D cmd (cwd w) (fs w) (env w) in
  let w' := mkWorld (cwd w) fs' env' (stdout w) (calls w ++ [cmd])%list in
  match r with
  | Completed rc out err => (Ret (mkCompleted rc out err), w')
  | TimedOut => (Raise TimeoutExpired, w')
  | LaunchFailed msg => (Raise (OSError msg), w')
  | Undecodable msg => (Raise (UnicodeDecodeError msg), w')
  end.

(** Lines 105-112: [proc = subprocess.Popen(cmd)], [time.sleep(0.2)],
    [proc.terminate()], [proc.wait()]. *)
Definition popen_terminate_wait (cmd : list string) : M unit := fun w =>
  let '(r, fs', env') := interrupt_child D cmd (cwd w) (fs w) (env w) in
  let w' := mkWorld (cwd w) fs' env' (stdout w) (calls w ++ [cmd])%list in
  match r with
  | Stopped => (Ret tt, w')
  | SpawnFailed msg => (Raise (OSError msg), w')
  | NeverExits => (Hang, w')
  end.

(** The [finally] clause of every scenario. *)
Definition cleanup (p : string) : M unit :=
  ex ← os_path_exists p;
  if (ex : bool) then os_remove p else mret tt.

(** *** Scenario A *)

Definition test_http_download : M bool :=
  print "Testing HTTP download...";;
  let output_file := "test_download.json" in
  let cmd := ["./bin/falcon-cli"; "https://httpbin.org/json"; "-o"; output_file] in
  try_finally
    (try_except
       (result ← subprocess_run cmd;
        if negb (returncode result =? 0)%Z then
          print ("❌ Download failed with exit code " +:+ str_int (returncode result));;
          print ("STDOUT: " +:+ cp_stdout result);;
          print ("STDERR: " +:+ cp_stderr result);;
          mret false
        else
          ex ← os_path_exists output_file;
          if (ex : bool) then
            file_size ← os_path_getsize output_file;
            print ("✅ Download successful! File size: " +:+ str_int file_size +:+ " bytes");;
            content ← read_text output_file;
            if contains (dq +:+ "slideshow" +:+ dq) content then
              print "✅ Content verification passed";;
              mret true
            else
              print "❌ Content verification failed";;
              mret false
          else
            print "❌ Output file not found";;
            mret false)
       (fun e =>
          match e with
          | TimeoutExpired => Some (print "❌ Download timed out";; mret false)
          | OSError msg | UnicodeDecodeError msg =>
              Some (print ("❌ Error: " +:+ msg);; mret false)
          | SystemExit _ => None
          end))
    (cleanup output_file).

(** *** Scenario B *)

Definition urls : list (string * string) :=
  [("https://httpbin.org/uuid", "uuid.json");
   ("https://httpbin.org/ip", "ip.json");
   ("https://httpbin.org/user-agent", "user-agent.json")].

(** One iteration of the loop of lines 76-92. *)
Definition download_one (success_count : Z) (item : string * string) : M Z :=
  let '(url, filename) := item in
  print ("  Downloading " +:+ filename +:+ "...");;
  let cmd := ["./bin/falcon-cli"; url; "-o"; filename] in
  try_finally
    (try_except
       (result ← subprocess_run cmd;
        ok ← (if (returncode result =? 0)%Z then os_path_exists filename else mret false);
        if (ok : bool) then
          print ("    ✅ " +:+ filename);;
          mret (success_count + 1)
        else
          print ("    ❌ " +:+ filename);;
          mret success_count)
       (fun _ => Some (print ("    ❌ " +:+ filename);; mret success_count)))
    (cleanup filename).

Definition test_multiple_downloads : M bool :=
  print (nl +:+ "Testing multiple downloads...");;
  success_count ← for_each download_one urls 0;
  print (nl +:+ "  Results: " +:+ str_int success_count +:+ "/"
            +:+ str_int (Z.of_nat (length urls)) +:+ " downloads successful");;
  mret (success_count =? Z.of_nat (length urls))%Z.

(** *** Scenario C *)

Definition test_resume : M bool :=
  print (nl +:+ "Testing resume functionality...");;
  let output_file := "resume_test.bin" in
  let cmd := ["./bin/falcon-cli"; "https://httpbin.org/bytes/1024"; "-o"; output_file] in
  popen_terminate_wait cmd;;
  ex ← os_path_exists output_file;
  partial_size ←
    (if (ex : bool) then
       partial_size ← os_path_getsize output_file;
       print ("  Partial download: " +:+ str_int partial_size +:+ " bytes");;
       mret partial_size
     else mret 0);
  let cmd := ["./bin/falcon-cli"; "https://httpbin.org/bytes/1024"; "-o"; output_file] in
  try_finally
    (try_except
       (result ← subprocess_run cmd;
        ok ← (if (returncode result =? 0)%Z then os_path_exists output_file else mret false);
        if (ok : bool) then
          final_size ← os_path_getsize output_file;
          print ("  Final download: " +:+ str_int final_size +:+ " bytes");;
          if (final_size =? 1024)%Z then
            print "  ✅ Resume functionality working";;
            mret true
          else
            print "  ❌ Resume functionality failed";;
            mret false
        else
          print "  ❌ Resume test failed";;
          mret false)
       (fun _ => Some (print "  ❌ Resume test error";; mret false)))
    (cleanup output_file).

(** *** The runner *)

(** Lines 171-186: the summary loop and the exit status. *)
Definition summary_line (passed : Z) (entry : string * bool) : M Z :=
  let '(test_name, result) := entry in
  let status := if result then "✅ PASS" else "❌ FAIL" in
  print (ljust 25 test_name +:+ " " +:+ status);;
  mret (if result then passed + 1 else passed).

Definition summary (results : list (string * bool)) : M Z :=
  print (nl +:+ "=== Test Summary ===");;
  passed ← for_each summary_line results 0;
  print (nl +:+ "Overall: " +:+ str_int passed +:+ "/"
            +:+ str_int (Z.of_nat (length results)) +:+ " tests passed");;
  if (passed =? Z.of_nat (length results))%Z then
    print (nl +:+ "🎉 All tests passed!");;
    mret 0
  else
    print (nl +:+ "⚠️  Some tests failed");;
    mret 1.

(** Lines 163-186. *)
Definition run_tests : M Z :=
  let results := [] in
  r ← test_http_download;
  let results := (results ++ [("Basic HTTP Download", r)])%list in
  r ← test_multiple_downloads;
  let results := (results ++ [("Multiple Downloads", r)])%list in
  r ← test_resume;
  let results := (results ++ [("Resume Functionality", r)])%list in
  summary results.

Definition main : M Z :=
  print ("=== Falcon Downloader Integration Tests ===" +:+ nl);;
  ex ← os_path_exists "build";
  (if (ex : bool) then os_chdir "build"
   else
     base ← cwd_basename;
     if negb (String.eqb base "build") then
       print "Error: Please run from project root or build directory";;
       sys_exit 1
     else mret tt);;
  ex ← os_path_exists "bin/falcon-cli";
  if negb (ex : bool) then
    print "Error: falcon-cli not found in build/bin/";;
    print "Please run 'cmake --build build --target falcon-cli' first";;
    sys_exit 1
  else run_tests.

(** [sys.exit(main())]: how the process ends.  An exception that reaches
    the top level other than [SystemExit] ends it with a traceback. *)
Inductive process_end : Type :=
| Exited (code : Z)
| Crashed (e : exn)
| Stuck.

Definition script (w : World) : process_end * World :=
  match main w with
  | (Ret code, w') => (Exited code, w')
  | (Raise (SystemExit code), w') => (Exited code, w')
  | (Raise e, w') => (Crashed e, w')
  | (Hang, w') => (Stuck, w')
  end.

(** The files and the outside state one launch of [cmd] leaves. *)
Definition after_run (cmd : list string) (w : World)
  : gmap (list string) node * Env :=
  ((run_child D cmd (cwd w) (fs w) (env w)).1.2,
   (run_child D cmd (cwd w) (fs w) (env w)).2).

(** The world right after lines 105-112 when the interrupted child has
    exited: the files and outside state it left, and its launch recorded. *)
Definition after_interrupt (cmd : list string) (w : World) : World :=
  mkWorld (cwd w)
          (interrupt_child D cmd (cwd w) (fs w) (env w)).1.2
          (interrupt_child D cmd (cwd w) (fs w) (env w)).2
          (stdout w) (calls w ++ [cmd])%list.

(** Whether one item of scenario B counts as a success in a world: the
    launch gives a result with status 0 and something exists at the
    destination. *)
Definition item_ok (item : string * string) (w : World) : bool :=
  let cmd := ["./bin/falcon-cli"; item.1; "-o"; item.2] in
  match (run_child D cmd (cwd w) (fs w) (env w)).1.1 with
  | Completed rc _ _ =>
      (rc =? 0)%Z
      && bool_decide (is_Some ((after_run cmd w).1 !! (cwd w ++ components item.2)%list))
  | TimedOut | LaunchFailed _ | Undecodable _ => false
  end.

(** The files and outside state one item of scenario B leaves: what its
    launch left, without the item's destination. *)
Definition item_leaves (item : string * string) (w : World) : World :=
  let cmd := ["./bin/falcon-cli"; item.1; "-o"; item.2] in
  mkWorld (cwd w)
          (delete (cwd w ++ components item.2)%list (after_run cmd w).1)
          (after_run cmd w).2
          (stdout w) (calls w).

(** The number of successful items of a list, each in the world the
    items before it leave. *)
Fixpoint count_ok (items : list (string * string)) (w : World) : Z :=
  match items with
  | [] => 0
  | item :: rest =>
      (if item_ok item w then 1 else 0) + count_ok rest (item_leaves item w)
  end.

(** The directory the scenarios run in when the start-up checks on the
    working directory pass (lines 151-155): the [build] directory below
    the working directory, or the working directory itself when it has
    no [build] entry and is named [build]. *)
Definition build_cwd (w : World) : option (list string) :=
  match fs w !! (cwd w ++ ["build"])%list with
  | Some (Directory _) => Some (cwd w ++ ["build"])%list
  | Some (File _) => None
  | None =>
      if String.eqb (List.last (cwd w) "") "build" then Some (cwd w) else None
  end.

(** Two worlds the executable cannot tell apart. *)
Definition same_outside (w1 w2 : World) : Prop :=
  cwd w1 = cwd w2 /\ fs w1 = fs w2 /\ env w1 = env w2.

(** The contract on the executable that the cleanup of scenario B
    relies on: a run for one destination of the list does not create
    the file of another one. *)
Definition leaves_other_destinations : Prop :=
  forall (url dest other : string) (dir : list string)
         (files : gmap (list string) node) (e : Env),
    In other (snd <$> urls) ->
    components other <> components dest ->
    files !! (dir ++ components other)%list = None ->
    (run_child D ["./bin/falcon-cli"; url; "-o"; dest] dir files e).1.2
      !! (dir ++ components other)%list = None.

End Scenarios.

Arguments components : simpl never.
Arguments mkWorld {Env} _ _ _ _ _.
Arguments cwd {Env} _.
Arguments fs {Env} _.
Arguments env {Env} _.
Arguments stdout {Env} _.
Arguments calls {Env} _.
Arguments mkDownloader {Env} _ _ _.
Arguments run_child {Env} _ _ _ _ _.
Arguments interrupt_child {Env} _ _ _ _ _.
Arguments decode_text {Env} _ _.
Arguments resolve {Env} _ _.
Arguments M : clear implicits.
Arguments test_http_download {Env} D.
Arguments test_multiple_downloads {Env} D.
Arguments test_resume {Env} D.
Arguments download_one {Env} D _ _.
Arguments summary {Env} _.
Arguments run_tests {Env} D.
Arguments main {Env} D.
Arguments script {Env} D _.
Arguments cleanup {Env} _.
Arguments leaves_other_destinations {Env} D.
Arguments after_run {Env} D _ _.
Arguments after_interrupt {Env} D _ _.
Arguments item_ok {Env} D _ _.
Arguments item_leaves {Env} D _ _.
Arguments count_ok {Env} D _ _.
Arguments same_outside {Env} _ _.
Arguments build_cwd {Env} _.
Arguments for_each {Env S B} _ _ _.

(** *** Sample executables and a sample build tree *)

Fixpoint bytes (n : nat) : string :=
  match n with
  | O => ""
  | S n' => String "x" (bytes n')
  end.

(** What the sample server answers. *)
Definition body_of (url : string) : string :=
  if String.eqb url "https://httpbin.org/json" then
    "{" +:+ dq +:+ "slideshow" +:+ dq +:+ ": {}}"
  else if String.eqb url "https://httpbin.org/bytes/1024" then bytes 1024
  else "{}".

(** A decoding for the examples: bytes below 128 are text in every
    encoding a locale uses, and a byte from 128 on is refused, as UTF-8
    refuses a lone one. *)
Definition ascii_text (content : string) : res string :=
  if forallb (fun c => (nat_of_ascii c <? 128)%nat) (list_ascii_of_string content)
  then Ok content
  else Err "'utf-8' codec can't decode byte: invalid start byte".

(** An executable that keeps the contract: a run writes the whole body
    to its destination and exits 0; interrupted, it leaves a part. *)
Definition obedient : Downloader unit :=
  mkDownloader
    (fun cmd dir files e =>
       match cmd with
       | [_; url; _; dest] =>
           (Completed 0 "" "", <[(dir ++ components dest)%list := File (body_of url)]> files, e)
       | _ => (Completed 2 "" "usage", files, e)
       end)
    (fun cmd dir files e =>
       match cmd with
       | [_; url; _; dest] =>
           (Stopped, <[(dir ++ components dest)%list := File "xxxx"]> files, e)
       | _ => (Stopped, files, e)
       end)
    ascii_text.

(** An executable like [obedient] whose server is down for the first
    scenario's source only. *)
Definition first_source_down : Downloader unit :=
  mkDownloader
    (fun cmd dir files e =>
       match cmd with
       | [_; url; _; dest] =>
           if String.eqb url "https://httpbin.org/json" then
             (Completed 1 "" "connection refused", files, e)
           else
             (Completed 0 "" "", <[(dir ++ components dest)%list := File (body_of url)]> files, e)
       | _ => (Completed 2 "" "usage", files, e)
       end)
    (interrupt_child obedient)
    ascii_text.

(** A file at [bin/falcon-cli] that the system refuses to start, for
    instance one without the execute permission. *)
Definition unlaunchable : Downloader unit :=
  mkDownloader
    (fun _ _ files e => (LaunchFailed "[Errno 13] Permission denied: './bin/falcon-cli'", files, e))
    (fun _ _ files e => (SpawnFailed "[Errno 13] Permission denied: './bin/falcon-cli'", files, e))
    ascii_text.

(** The project root with a build directory that holds the executable. *)
Definition project_root : World unit :=
  mkWorld ["falcon"]
          (list_to_map [(["falcon"; "build"], Directory 4096);
                        (["falcon"; "build"; "bin"], Directory 4096);
                        (["falcon"; "build"; "bin"; "falcon-cli"], File "ELF")])
          tt [] [].

(** The same tree seen from inside [build], where the scenarios run. *)
Definition build_dir : World unit :=
  mkWorld ["falcon"; "build"] (fs project_root) tt [] [].

End Harness.

(** * Properties of the report generator *)

Module ReportFacts.
Import Report.

Section Rendering.

Variable format_f : nat -> float -> string.

(** The loops of the renderer only append. *)

Lemma add_row_fold (suites : list Suite) (html_content : list Frag) :
  fold_left (add_row format_f) suites html_content
  = (html_content ++ (row_of format_f <$> suites))%list.
Proof.
  revert html_content.
  induction suites as [|s suites IH]; intros html_content; csimpl.
  - by rewrite app_nil_r.
  - rewrite IH. unfold add_row, row_of. by rewrite <- app_assoc.
Qed.

Lemma add_case_fold (cases : list TestCase) (html_content : list Frag) :
  fold_left (add_case format_f) cases html_content
  = (html_content ++ (case_div format_f <$> List.filter not_pass cases))%list.
Proof.
  revert html_content.
  induction cases as [|c cases IH]; intros html_content; csimpl.
  - by rewrite app_nil_r.
  - rewrite IH. unfold add_case at 1. fold (not_pass c).
    destruct (not_pass c); csimpl; [|done].
    by rewrite <- app_assoc.
Qed.

Lemma add_details_step (html_content : list Frag) (s : Suite) :
  add_details format_f html_content s
  = (html_content ++ detail_entry format_f s)%list.
Proof.
  unfold add_details, detail_entry.
  destruct ((0 <? s_failures s)%Z || (0 <? s_errors s)%Z).
  - rewrite add_case_fold. by rewrite <- app_assoc.
  - by rewrite app_nil_r.
Qed.

Lemma add_details_fold (suites : list Suite) (html_content : list Frag) :
  fold_left (add_details format_f) suites html_content
  = (html_content ++ concat (detail_entry format_f <$> suites))%list.
Proof.
  revert html_content.
  induction suites as [|s suites IH]; intros html_content; csimpl.
  - by rewrite app_nil_r.
  - rewrite IH, add_details_step. by rewrite <- app_assoc.
Qed.

(** The document is the head, one row per suite, the end of the table,
    the detail entries of the suites and the foot, in this order. *)
Lemma render_shape (t : Totals) (now : string) :
  render format_f t now
  = (Head (str_int (total_tests t))
          (str_int (total_tests t - total_failures t - total_errors t))
          (str_int (total_failures t)) (str_int (total_errors t))
          (format_f 2 (total_time t))
       :: (row_of format_f <$> all_results t)
       ++ TableEnd
       :: concat (detail_entry format_f <$> all_results t)
       ++ [Foot now])%list.
Proof.
  unfold render. rewrite add_details_fold, add_row_fold.
  csimpl. by rewrite <- !app_assoc.
Qed.

Lemma is_row_rows (suites : list Suite) :
  List.filter is_row (row_of format_f <$> suites) = row_of format_f <$> suites.
Proof. induction suites as [|s suites IH]; csimpl; [done | by rewrite IH]. Qed.

Lemma is_row_details (suites : list Suite) :
  List.filter is_row (concat (detail_entry format_f <$> suites)) = [].
Proof.
  induction suites as [|s suites IH]; csimpl; [done|].
  rewrite List.filter_app, IH, app_nil_r.
  unfold detail_entry.
  destruct ((0 <? s_failures s)%Z || (0 <? s_errors s)%Z); csimpl; [|done].
  induction (List.filter not_pass (s_test_cases s)) as [|c l IHl]; csimpl; done.
Qed.

Lemma is_detail_rows (suites : list Suite) :
  List.filter is_detail (row_of format_f <$> suites) = [].
Proof. induction suites as [|s suites IH]; csimpl; done. Qed.

Lemma is_detail_details (suites : list Suite) :
  List.filter is_detail (concat (detail_entry format_f <$> suites))
  = concat (detail_entry format_f <$> suites).
Proof.
  induction suites as [|s suites IH]; csimpl; [done|].
  rewrite List.filter_app, IH. f_equal.
  unfold detail_entry.
  destruct ((0 <? s_failures s)%Z || (0 <? s_errors s)%Z); csimpl; [|done].
  f_equal.
  induction (List.filter not_pass (s_test_cases s)) as [|c l IHl]; csimpl; [done|].
  by rewrite IHl.
Qed.

Lemma rows_of_render (t : Totals) (now : string) :
  List.filter is_row (render format_f t now) = row_of format_f <$> all_results t.
Proof.
  rewrite render_shape. cbn [List.filter is_row].
  rewrite List.filter_app, is_row_rows. cbn [List.filter is_row].
  rewrite List.filter_app, is_row_details. cbn [List.filter is_row].
  by rewrite app_nil_r.
Qed.

Lemma details_of_render (t : Totals) (now : string) :
  List.filter is_detail (render format_f t now)
  = concat (detail_entry format_f <$> all_results t).
Proof.
  rewrite render_shape. cbn [List.filter is_detail].
  rewrite List.filter_app, is_detail_rows. cbn [List.filter is_detail].
  rewrite List.filter_app, is_detail_details. cbn [List.filter is_detail].
  by rewrite app_nil_r.
Qed.

End Rendering.

(** [str] of an integer determines the integer. *)
Lemma to_int_not_nil (z : Z) :
  Z.to_int z <> Decimal.Pos Decimal.Nil /\ Z.to_int z <> Decimal.Neg Decimal.Nil.
Proof.
  destruct z as [|p|p]; simpl; split; try discriminate;
    intro H; injection H as H; revert H; apply Unsigned.to_uint_nonnil.
Qed.

Lemma str_int_inj (a b : Z) : str_int a = str_int b -> a = b.
Proof.
  unfold str_int. intros H.
  apply (f_equal NilZero.int_of_string) in H.
  destruct (to_int_not_nil a) as [Ha1 Ha2], (to_int_not_nil b) as [Hb1 Hb2].
  rewrite !NilZero.isi in H by assumption.
  injection H as H. apply (f_equal Z.of_int) in H.
  by rewrite !DecimalZ.of_to in H.
Qed.

Section Collecting.

Variable py_int : string -> res Z.
Variable py_float : string -> res float.

Abbreviation parse := (parse_xml_file py_int py_float).
Abbreviation suite := (suite_of py_int py_float).
Abbreviation collect1 := (collect py_int py_float).

(** One file: a suite is appended and added, or nothing changes but
    the printed lines. *)
Lemma collect_some (t : Totals) (file : string * res Element) (s : Suite) :
  suite file = Some s ->
  collect1 t file
  = mkTotals (printed t ++ (parse file.1 file.2).1) (all_results t ++ [s])
             (total_tests t + s_tests s) (total_failures t + s_failures s)
             (total_errors t + s_errors s) (total_time t + s_time s)%float.
Proof.
  unfold suite_of, collect. destruct (parse file.1 file.2) as [out r]; simpl.
  by intros ->.
Qed.

Lemma collect_none (t : Totals) (file : string * res Element) :
  suite file = None ->
  collect1 t file
  = mkTotals (printed t ++ (parse file.1 file.2).1) (all_results t)
             (total_tests t) (total_failures t) (total_errors t) (total_time t).
Proof.
  unfold suite_of, collect. destruct (parse file.1 file.2) as [out r]; simpl.
  by intros ->.
Qed.

(** The first loop, from any starting value of its variables. *)
Lemma collect_fold (files : list (string * res Element)) (t : Totals) :
  let t' := fold_left collect1 files t in
  let suites := omap suite files in
  all_results t' = (all_results t ++ suites)%list
  /\ total_tests t' = total_tests t + sumZ (s_tests <$> suites)
  /\ total_failures t' = total_failures t + sumZ (s_failures <$> suites)
  /\ total_errors t' = total_errors t + sumZ (s_errors <$> suites)
  /\ total_time t' = fold_left PrimFloat.add (s_time <$> suites) (total_time t)
  /\ printed t' = (printed t ++ concat ((fun f => (parse f.1 f.2).1) <$> files))%list.
Proof.
  revert t. induction files as [|file files IH]; intros t; cbn zeta.
  - csimpl. rewrite !app_nil_r. unfold sumZ. csimpl. repeat split; lia.
  - cbn [fold_left]. specialize (IH (collect1 t file)). cbn zeta in IH.
    destruct IH as (Hr & Ht & Hf & He & Htm & Hp).
    rewrite Hr, Ht, Hf, He, Htm, Hp. clear Hr Ht Hf He Htm Hp.
    csimpl. destruct (suite file) as [s|] eqn:Hs.
    + rewrite (collect_some _ _ _ Hs). csimpl. unfold sumZ. csimpl.
      rewrite <- !app_assoc. repeat split; try done; lia.
    + rewrite (collect_none _ _ Hs). csimpl.
      rewrite <- !app_assoc. repeat split; done.
Qed.

(** A file that fails to parse prints one line naming it and its error,
    and yields no suite. *)
Lemma parse_error_logged (xml_file : string) (doc : res Element) (e : string) :
  (root ← doc; parse_root py_int py_float xml_file root) = Err e ->
  parse xml_file doc = (["Error parsing " +:+ xml_file +:+ ": " +:+ e], None).
Proof. unfold parse_xml_file. by intros ->. Qed.

(** What [parse_xml_file] returns and prints, read off the body of its
    [try]: a suite only when the body gives one, a line only when the
    body raises. *)
Lemma suite_of_parseable (file : string * res Element) :
  suite file = parseable py_int py_float file.
Proof.
  unfold suite_of, parseable, try_body, parse_xml_file.
  by destruct (_ ≫= _) as [[s|]|e].
Qed.

Lemma parse_logged (file : string * res Element) :
  (parse file.1 file.2).1 = logged py_int py_float file.
Proof.
  unfold logged, try_body, parse_xml_file. by destruct (_ ≫= _) as [[s|]|e].
Qed.

Lemma parse_logged_all (files : list (string * res Element)) :
  (fun f => (parse f.1 f.2).1) <$> files = logged py_int py_float <$> files.
Proof. apply list_fmap_ext. intros _ f _. apply parse_logged. Qed.

Lemma suites_parseable (files : list (string * res Element)) :
  omap suite files = omap (parseable py_int py_float) files.
Proof.
  induction files as [|f files IH]; [done|].
  csimpl. by rewrite suite_of_parseable, IH.
Qed.

Lemma malformed_no_suite (file : string * res Element) :
  malformed py_int py_float file = true -> suite file = None.
Proof.
  rewrite suite_of_parseable. unfold malformed, parseable.
  by destruct (try_body _ _ _) as [[s|]|e].
Qed.

(** Malformed files can be left out of the first loop without changing
    any of its variables but the printed lines. *)
Lemma collect_skips (files : list (string * res Element)) (t : Totals) :
  let t1 := fold_left collect1 files t in
  let t2 := fold_left collect1
              (List.filter (fun f => negb (malformed py_int py_float f)) files) t in
  all_results t1 = all_results t2 /\ total_tests t1 = total_tests t2
  /\ total_failures t1 = total_failures t2 /\ total_errors t1 = total_errors t2
  /\ total_time t1 = total_time t2.
Proof.
  cbn zeta.
  assert (Hom : omap suite (List.filter (fun f => negb (malformed py_int py_float f)) files)
                = omap suite files).
  { induction files as [|f files IH]; [done|].
    cbn [List.filter].
    destruct (malformed py_int py_float f) eqn:Hm; cbn [negb]; csimpl.
    - by rewrite (malformed_no_suite _ Hm).
    - by rewrite IH. }
  pose proof (collect_fold files t) as H1.
  pose proof (collect_fold
                (List.filter (fun f => negb (malformed py_int py_float f)) files) t) as H2.
  cbn zeta in H1, H2. rewrite Hom in H2.
  destruct H1 as (-> & -> & -> & -> & -> & _).
  destruct H2 as (-> & -> & -> & -> & -> & _). done.
Qed.

End Collecting.

(** *** The elapsed time a parsed suite carries *)

Lemma last_cons_default {A : Type} (x : A) (l : list A) (d d' : A) :
  List.last (x :: l) d = List.last (x :: l) d'.
Proof.
  revert x. induction l as [|y l IH]; intros x; [done|].
  change (List.last (y :: l) d = List.last (y :: l) d'). apply IH.
Qed.

Section SuiteTime.

Variable py_int : string -> res Z.
Variable py_float : string -> res float.

(** The loop over the cases leaves in [time] the time of the last case,
    and the value it had before the loop only when there is no case. *)
Lemma case_loop_time (cases : list Element) (time0 time : float)
    (acc test_cases : list TestCase) :
  res_fold (case_step py_float) cases (time0, acc) = Ok (time, test_cases) ->
  exists new : list TestCase,
    test_cases = (acc ++ new)%list /\ length new = length cases
    /\ time = List.last (c_time <$> new) time0.
Proof.
  revert time0 acc. induction cases as [|c cases IH]; intros time0 acc; csimpl.
  - intros [= <- <-]. exists []. by rewrite app_nil_r.
  - unfold case_step at 1.
    destruct (float_attr py_float c "time") as [t1|e] eqn:Ht; csimpl; [|done].
    destruct (case_status c) as [st msg]. intros H.
    apply IH in H as (new & -> & Hlen & ->).
    eexists (_ :: new). rewrite <- app_assoc. split; [done|]. split; [by csimpl; rewrite Hlen|].
    destruct new as [|c' new']; [done|].
    rewrite !fmap_cons.
    change (List.last (c_time c' :: (c_time <$> new')) t1
            = List.last (c_time c' :: (c_time <$> new')) time0).
    apply last_cons_default.
Qed.

(** A parsed suite carries its declared [time] attribute only when it
    has no case entries; otherwise it carries the last case's time. *)
Lemma parsed_suite_time (xml_file : string) (root : Element) (s : Suite) :
  parse_root py_int py_float xml_file root = Ok (Some s) ->
  exists (test_suite : Element) (declared : float),
    find root "testsuite" = Some test_suite
    /\ float_attr py_float test_suite "time" = Ok declared
    /\ length (s_test_cases s) = length (findall test_suite "testcase")
    /\ s_time s = List.last (c_time <$> s_test_cases s) declared.
Proof.
  unfold parse_root. destruct (find root "testsuite") as [ts|]; [|done].
  destruct (int_attr py_int ts "tests"); csimpl; [|done].
  destruct (int_attr py_int ts "failures"); csimpl; [|done].
  destruct (int_attr py_int ts "errors"); csimpl; [|done].
  destruct (float_attr py_float ts "time") as [declared|] eqn:Hd; csimpl; [|done].
  destruct (res_fold _ _ _) as [[time cases]|] eqn:Hloop; csimpl; [|done].
  intros [= <-]. csimpl.
  apply case_loop_time in Hloop as (new & -> & Hlen & ->).
  exists ts, declared. rewrite app_nil_l. done.
Qed.

(** The name a parsed suite carries. *)
Lemma parsed_suite_name (xml_file : string) (root : Element) (s : Suite) :
  parse_root py_int py_float xml_file root = Ok (Some s) ->
  exists test_suite : Element,
    find root "testsuite" = Some test_suite
    /\ s_name s = default (basename xml_file) (get test_suite "name").
Proof.
  unfold parse_root. destruct (find root "testsuite") as [ts|]; [|done].
  destruct (int_attr py_int ts "tests"); csimpl; [|done].
  destruct (int_attr py_int ts "failures"); csimpl; [|done].
  destruct (int_attr py_int ts "errors"); csimpl; [|done].
  destruct (float_attr py_float ts "time"); csimpl; [|done].
  destruct (res_fold _ _ _) as [[time cases]|]; csimpl; [|done].
  intros [= <-]. by exists ts.
Qed.

End SuiteTime.

(** ** The claims about the report generator *)

(** C1: a failing input.  The artifact [one_case_suite] declares a suite
    time of 10 seconds and has one case of 1 second; the parsed suite
    carries 1 second, so the row and the summary show 1 second where the
    claim says the declared 10. *)
Theorem C1_case_time_replaces_suite_time (format_f : nat -> float -> string) :
  let P := results_with [("results/a.xml", Ok one_case_suite)] in
  (exists test_suite,
      find one_case_suite "testsuite" = Some test_suite
      /\ float_attr read_float test_suite "time" = Ok 10%float)
  /\ suite_of read_int read_float ("results/a.xml", Ok one_case_suite)
     = Some (mkSuite "s" 1 0 0 1%float [mkCase "t" "c" 1%float PASS ""])
  /\ written (generate_html_report read_int read_float format_f P "results"
                "report.html" "now")
     = Some ("report.html",
             [Head "1" "1" "0" "0" (format_f 2%nat 1%float);
              Row "s" "1" "1" "0" "0" (format_f 2%nat 1%float);
              TableEnd; Foot "now"])
  /\ PrimFloat.eqb 1 10 = false.
Proof.
  cbn zeta. split; [eexists; split; reflexivity|].
  split; [reflexivity|]. split; reflexivity.
Qed.

(** C2 as stated fails: a directory whose only matching file is
    malformed yields no suite, and a report with zero totals is written. *)
Lemma C2_report_written_when_all_malformed :
  let P := results_with [("results/broken.xml", Err "syntax error: line 1, column 0")] in
  Forall (fun f => malformed read_int read_float f = true)
         (load P (glob P (path_join "results" "*.xml")))
  /\ generate_html_report read_int read_float no_format P "results" "report.html" "now"
     = mkEffect ["Error parsing results/broken.xml: syntax error: line 1, column 0";
                 "HTML报告已生成: report.html"]
                (Some ("report.html", [Head "0" "0" "0" "0" ""; TableEnd; Foot "now"]))
                None.
Proof. split; [repeat constructor | reflexivity]. Qed.

(** C2, amended: when the pattern matches no file, the reporter prints
    the no-input line and writes no report file; when it matches files
    that all fail to parse, the reporter logs each of them and, the
    report file being writable, writes a report with zero totals and no
    suite rows. *)
Theorem C2_no_report_without_matching_files
    (py_int : string -> res Z) (py_float : string -> res float)
    (format_f : nat -> float -> string)
    (P : Platform) (dir out now : string) :
  let e := generate_html_report py_int py_float format_f P dir out now in
  let xml_files := glob P (path_join dir "*.xml") in
  let files := load P xml_files in
  (xml_files = [] -> e = mkEffect ["No XML files found in " +:+ dir] None None)
  /\ (xml_files <> [] ->
      Forall (fun f => malformed py_int py_float f = true) files ->
      write_text P out = None ->
      e = mkEffect (concat (logged py_int py_float <$> files)
                      ++ ["HTML报告已生成: " +:+ out])%list
                   (Some (out, [Head "0" "0" "0" "0" (format_f 2%nat 0%float);
                                TableEnd; Foot now]))
                   None).
Proof.
  cbn zeta. unfold generate_html_report. split.
  - intros H. by rewrite H.
  - intros Hne Hall Hw.
    destruct (glob P (path_join dir "*.xml")) as [|f fs] eqn:Hg; [done|].
    rewrite Hw.
    assert (Hnone : omap (suite_of py_int py_float) (load P (f :: fs)) = []).
    { clear -Hall. revert Hall. generalize (load P (f :: fs)). intros l Hall.
      induction Hall as [|g gs Hg1 _ IH]; [done|].
      csimpl. by rewrite (malformed_no_suite _ _ _ Hg1). }
    destruct (collect_fold py_int py_float (load P (f :: fs)) totals0)
      as (Hr & Ht & Hf & He & Htm & Hp).
    cbn zeta in Hr, Ht, Hf, He, Htm, Hp.
    rewrite Hnone in Hr, Ht, Hf, He, Htm.
    rewrite render_shape, Hr, Ht, Hf, He, Htm, Hp, parse_logged_all. done.
Qed.

(** The two cases of the amended C2 on sample directories. *)
Lemma C2_no_report_witness :
  generate_html_report read_int read_float no_format (results_with []) "results"
    "report.html" "now"
  = mkEffect ["No XML files found in results"] None None
  /\ written (generate_html_report read_int read_float no_format
                (results_with [("results/broken.xml", Err "syntax error: line 1, column 0")])
                "results" "report.html" "now")
     = Some ("report.html", [Head "0" "0" "0" "0" ""; TableEnd; Foot "now"]).
Proof.
  split.
  - apply (proj1 (C2_no_report_without_matching_files read_int read_float no_format
                    (results_with []) "results" "report.html" "now")).
    reflexivity.
  - rewrite (proj2 (C2_no_report_without_matching_files read_int read_float no_format
                      (results_with [("results/broken.xml",
                                      Err "syntax error: line 1, column 0")])
                      "results" "report.html" "now")).
    + reflexivity.
    + discriminate.
    + repeat constructor.
    + reflexivity.
Defined.

(** C3 as stated fails: for an existing directory in which the pattern
    matches no file the no-input line is printed and the process ends
    with exit status 0. *)
Lemma C3_no_artifacts_exits_zero :
  main read_int read_float no_format (results_with [])
       ["generate_test_report.py"; "results"] "now"
  = (mkEffect ["No XML files found in results"] None None, 0).
Proof. reflexivity. Qed.

(** C3, amended: when the directory exists and the pattern matches no
    file, the process, once the report directory is there, prints the
    no-input line, writes no report and ends with exit status 0; it ends
    with exit status 1 after a diagnostic when the argument count is
    wrong or the argument is not a directory, and with exit status 1
    and no diagnostic of its own when the report directory cannot be
    created. *)
Theorem C3_exit_status_of_main
    (py_int : string -> res Z) (py_float : string -> res float)
    (format_f : nat -> float -> string)
    (P : Platform) (argv : list string) (now : string) :
  let r := main py_int py_float format_f P argv now in
  let report_dir := fun dir : string =>
    dirname (path_join (path_join (path_join dir "..") "test_reports")
                       "test_report.html") in
  (forall prog dir : string,
      argv = [prog; dir] -> isdir P dir = true ->
      makedirs P (report_dir dir) = None ->
      glob P (path_join dir "*.xml") = [] ->
      r = (mkEffect ["No XML files found in " +:+ dir] None None, 0))
  /\ (forall prog dir e : string,
        argv = [prog; dir] -> isdir P dir = true ->
        makedirs P (report_dir dir) = Some e ->
        r = (mkEffect [] None (Some e), 1))
  /\ (forall prog dir : string,
        argv = [prog; dir] -> isdir P dir = false ->
        r = (mkEffect ["错误: 目录不存在 - " +:+ dir] None None, 1))
  /\ (length argv <> 2%nat ->
      r = (mkEffect ["用法: python generate_test_report.py <测试结果目录>"] None None, 1)).
Proof.
  cbn zeta. split; [|split; [|split]].
  - intros prog dir -> Hd Hm Hg. unfold main. rewrite Hd, Hm. cbn [negb].
    unfold generate_html_report. by rewrite Hg.
  - intros prog dir e -> Hd Hm. unfold main. by rewrite Hd, Hm.
  - intros prog dir -> Hd. unfold main. by rewrite Hd.
  - intros Hlen. unfold main.
    destruct argv as [|a [|b [|c argv']]]; try done.
Qed.

(** The four cases of the amended C3 on sample command lines. *)
Lemma C3_exit_status_witness :
  main read_int read_float no_format (results_with [])
       ["generate_test_report.py"; "results"] "now"
  = (mkEffect ["No XML files found in results"] None None, 0)
  /\ main read_int read_float no_format (reports_blocked [])
          ["generate_test_report.py"; "results"] "now"
     = (mkEffect [] None (Some "[Errno 17] File exists: 'results/../test_reports'"), 1)
  /\ main read_int read_float no_format (results_with [])
          ["generate_test_report.py"; "missing"] "now"
     = (mkEffect ["错误: 目录不存在 - missing"] None None, 1)
  /\ main read_int read_float no_format (results_with [])
          ["generate_test_report.py"] "now"
     = (mkEffect ["用法: python generate_test_report.py <测试结果目录>"] None None, 1).
Proof.
  split; [|split; [|split]].
  - apply (proj1 (C3_exit_status_of_main read_int read_float no_format
                    (results_with []) ["generate_test_report.py"; "results"] "now")
             "generate_test_report.py" "results"); reflexivity.
  - apply (proj1 (proj2 (C3_exit_status_of_main read_int read_float no_format
                    (reports_blocked []) ["generate_test_report.py"; "results"] "now"))
             "generate_test_report.py" "results"); reflexivity.
  - apply (proj1 (proj2 (proj2 (C3_exit_status_of_main read_int read_float no_format
                    (results_with []) ["generate_test_report.py"; "missing"] "now")))
             "generate_test_report.py" "missing"); reflexivity.
  - apply (proj2 (proj2 (proj2 (C3_exit_status_of_main read_int read_float no_format
                    (results_with []) ["generate_test_report.py"] "now")))).
    cbn. lia.
Defined.

(** C5: every file whose parse raises prints one line naming the file
    and its error and yields no suite, the loop going on to the next
    file; the suites of the report are those of the parseable files, in
    order, and its four totals are their sums, so the document is the
    one obtained with the malformed files removed; that document is what
    the reporter writes. *)
Theorem C5_malformed_files_are_skipped
    (py_int : string -> res Z) (py_float : string -> res float)
    (format_f : nat -> float -> string)
    (P : Platform) (dir out now : string) :
  let files := load P (glob P (path_join dir "*.xml")) in
  let t := fold_left (collect py_int py_float) files totals0 in
  let suites := omap (parseable py_int py_float) files in
  all_results t = suites
  /\ total_tests t = sumZ (s_tests <$> suites)
  /\ total_failures t = sumZ (s_failures <$> suites)
  /\ total_errors t = sumZ (s_errors <$> suites)
  /\ total_time t = sumF (s_time <$> suites)
  /\ printed t = concat (logged py_int py_float <$> files)
  /\ (forall f : string * res Element,
        In f files -> malformed py_int py_float f = true ->
        parseable py_int py_float f = None
        /\ exists e : string,
             try_body py_int py_float f = Err e
             /\ logged py_int py_float f = ["Error parsing " +:+ f.1 +:+ ": " +:+ e])
  /\ render format_f t now
     = render format_f
         (fold_left (collect py_int py_float)
                    (List.filter (fun f => negb (malformed py_int py_float f)) files)
                    totals0) now
  /\ (files <> [] -> write_text P out = None ->
      generate_html_report py_int py_float format_f P dir out now
      = mkEffect (printed t ++ ["HTML报告已生成: " +:+ out])%list
                 (Some (out, render format_f t now)) None).
Proof.
  cbn zeta.
  destruct (collect_fold py_int py_float (load P (glob P (path_join dir "*.xml")))
              totals0) as (Hr & Ht & Hf & He & Htm & Hp).
  cbn zeta in Hr, Ht, Hf, He, Htm, Hp. csimpl in *.
  assert (Hs : omap (suite_of py_int py_float) (load P (glob P (path_join dir "*.xml")))
               = omap (parseable py_int py_float)
                      (load P (glob P (path_join dir "*.xml")))).
  { apply suites_parseable. }
  rewrite Hs in Hr, Ht, Hf, He, Htm.
  split; [done|]. split; [done|]. split; [done|]. split; [done|]. split; [done|].
  split; [by rewrite Hp, parse_logged_all|].
  split.
  { intros f _ Hm. revert Hm. unfold malformed, parseable, logged.
    destruct (try_body _ _ _) as [r|e]; [done|]. intros _.
    split; [done|]. by exists e. }
  split.
  { destruct (collect_skips py_int py_float (load P (glob P (path_join dir "*.xml")))
                totals0) as (Er & Et & Ef & Ee & Em).
    cbn zeta in Er, Et, Ef, Ee, Em.
    rewrite !render_shape. by rewrite Er, Et, Ef, Ee, Em. }
  intros Hne Hw. unfold generate_html_report.
  destruct (glob P (path_join dir "*.xml")); [done|]. by rewrite Hw.
Qed.

(** Two parseable artifacts with a malformed file between them: the
    malformed file is logged, and the report is the one of the two
    suites. *)
Lemma C5_malformed_files_witness :
  let good := [("results/a.xml", Ok one_case_suite); ("results/n.xml", Ok offsetting_suite)] in
  let bad := ("results/broken.xml", Err "syntax error: line 1, column 0") in
  let P := results_with [("results/a.xml", Ok one_case_suite); bad;
                         ("results/n.xml", Ok offsetting_suite)] in
  let e := generate_html_report read_int read_float no_format P "results"
             "report.html" "now" in
  stdout e = ["Error parsing results/broken.xml: syntax error: line 1, column 0";
              "HTML报告已生成: report.html"]
  /\ written e
     = written (generate_html_report read_int read_float no_format (results_with good)
                  "results" "report.html" "now")
  /\ written e
     = Some ("report.html",
             [Head "3" "3" "1" "-1" ""; Row "s" "1" "1" "0" "0" "";
              Row "n" "2" "2" "1" "-1" ""; TableEnd; SuiteHeading "n"; Foot "now"]).
Proof.
  cbn zeta.
  pose proof (C5_malformed_files_are_skipped read_int read_float no_format
                (results_with [("results/a.xml", Ok one_case_suite);
                               ("results/broken.xml", Err "syntax error: line 1, column 0");
                               ("results/n.xml", Ok offsetting_suite)])
                "results" "report.html" "now") as H.
  cbn zeta in H. destruct H as (_ & _ & _ & _ & _ & _ & _ & _ & H).
  rewrite H; [|discriminate|reflexivity].
  split; [reflexivity|]. split; reflexivity.
Defined.




(** C7: in the table, the passed cell of a suite's row is the decimal of
    its declared tests minus declared failures minus declared errors, as
    a plain integer subtraction with no clamping (the cell read back as a
    number is that difference, whatever its sign); the summary block's
    passed cell is the same subtraction over the three totals, which are
    the sums of the declared counts. *)
Theorem C7_passed_is_plain_subtraction
    (py_int : string -> res Z) (py_float : string -> res float)
    (format_f : nat -> float -> string)
    (files : list (string * res Element)) (now : string) :
  let t := fold_left (collect py_int py_float) files totals0 in
  let suites := all_results t in
  let doc := render format_f t now in
  List.filter is_row doc
  = (fun s => Row (s_name s) (str_int (s_tests s))
                  (str_int (s_tests s - s_failures s - s_errors s))
                  (str_int (s_failures s)) (str_int (s_errors s))
                  (format_f 2%nat (s_time s))) <$> suites
  /\ head doc
     = Some (Head (str_int (sumZ (s_tests <$> suites)))
                  (str_int (sumZ (s_tests <$> suites) - sumZ (s_failures <$> suites)
                            - sumZ (s_errors <$> suites)))
                  (str_int (sumZ (s_failures <$> suites)))
                  (str_int (sumZ (s_errors <$> suites)))
                  (format_f 2%nat (total_time t)))
  /\ (forall z : Z, Z.of_int <$> NilZero.int_of_string (str_int z) = Some z).
Proof.
  cbn zeta. split; [|split].
  - by rewrite rows_of_render.
  - rewrite render_shape. cbn [head].
    destruct (collect_fold py_int py_float files totals0) as (Hr & Ht & Hf & He & _).
    cbn zeta in Hr, Ht, Hf, He. rewrite Hr, Ht, Hf, He. csimpl. done.
  - intros z. unfold str_int.
    destruct (to_int_not_nil z) as [H1 H2].
    rewrite NilZero.isi by assumption. csimpl. by rewrite DecimalZ.of_to.
Qed.

(** C6 as stated fails: the artifact [offsetting_suite] declares one
    failure and minus one error, so failures plus errors is not greater
    than zero, and its heading is in the detail section all the same. *)
Lemma C6_sum_is_not_the_test :
  let e := generate_html_report read_int read_float no_format
             (results_with [("results/n.xml", Ok offsetting_suite)]) "results"
             "report.html" "now" in
  exists doc s,
    written e = Some ("report.html", doc)
    /\ suite_of read_int read_float ("results/n.xml", Ok offsetting_suite) = Some s
    /\ ~ (0 < s_failures s + s_errors s)
    /\ List.filter is_detail doc = [SuiteHeading "n"].
Proof.
  eexists _, _. split; [reflexivity|]. split; [reflexivity|].
  split; [|reflexivity]. vm_compute. discriminate.
Qed.

(** C6, amended: the detail section is the concatenation, in suite order,
    of one entry per suite; a suite has an entry exactly when its declared
    failures are positive or its declared errors are positive (the same as
    a positive sum when neither count is negative); the entry is the
    suite's heading followed by exactly its cases whose status is not
    PASS, in order, each with qualified name, status label, elapsed time
    to three decimals, and its message when the message is not empty. *)
Theorem C6_failure_details
    (format_f : nat -> float -> string) (t : Totals) (now : string) :
  List.filter is_detail (render format_f t now)
  = concat (detail_entry format_f <$> all_results t)
  /\ (forall s : Suite,
        detail_entry format_f s <> [] <-> (0 < s_failures s \/ 0 < s_errors s))
  /\ (forall s : Suite,
        (0 < s_failures s \/ 0 < s_errors s) ->
        detail_entry format_f s
        = SuiteHeading (s_name s)
            :: ((fun c =>
                   CaseDiv (match c_status c with FAIL => "fail" | _ => "error" end)
                           (c_classname c +:+ "." +:+ c_name c)
                           (status_str (c_status c))
                           (format_f 3%nat (c_time c))
                           (if String.eqb (c_message c) "" then None
                            else Some (c_message c)))
                  <$> filter (fun c => c_status c <> PASS) (s_test_cases s)))
  /\ (forall s : Suite,
        0 <= s_failures s -> 0 <= s_errors s ->
        (0 < s_failures s \/ 0 < s_errors s) <-> 0 < s_failures s + s_errors s).
Proof.
  split; [apply details_of_render|]. split; [|split].
  - intros s. unfold detail_entry.
    destruct (0 <? s_failures s)%Z eqn:Hf; destruct (0 <? s_errors s)%Z eqn:He;
      cbn [orb]; split; try done; try (intros _; lia).
    intros [H|H]; lia.
  - intros s Hg. unfold detail_entry.
    replace ((0 <? s_failures s)%Z || (0 <? s_errors s)%Z) with true
      by (symmetry; apply orb_true_iff; destruct Hg; [left|right]; lia).
    f_equal.
    induction (s_test_cases s) as [|c cases IH]; [done|].
    cbn [List.filter]. rewrite filter_cons. unfold not_pass at 1.
    destruct (decide (c_status c <> PASS)) as [Hc|Hc].
    + rewrite bool_decide_false by done. cbn [negb]. csimpl. rewrite IH.
      f_equal. unfold case_div. destruct (c_status c); done.
    + rewrite bool_decide_true by (by destruct (c_status c); try done; exfalso; apply Hc).
      cbn [negb]. done.
  - intros s Hf He. lia.
Qed.

(** A suite with one failed, one errored and one passed case, and the
    amended C6 on it. *)
Lemma C6_failure_details_witness :
  let s := mkSuite "s" 3 1 1 0
             [mkCase "a" "c" 0 PASS ""; mkCase "b" "c" 0 FAIL "boom";
              mkCase "d" "c" 0 ERROR ""] in
  detail_entry no_format s
  = [SuiteHeading "s"; CaseDiv "fail" "c.b" "FAIL" "" (Some "boom");
     CaseDiv "error" "c.d" "ERROR" "" None]
  /\ ((0 < s_failures s \/ 0 < s_errors s) <-> 0 < s_failures s + s_errors s).
Proof.
  cbn zeta. split.
  - rewrite (proj1 (proj2 (proj2 (C6_failure_details no_format totals0 "now")))
               (mkSuite "s" 3 1 1 0
                  [mkCase "a" "c" 0 PASS ""; mkCase "b" "c" 0 FAIL "boom";
                   mkCase "d" "c" 0 ERROR ""])).
    + reflexivity.
    + left. reflexivity.
  - apply (proj2 (proj2 (proj2 (C6_failure_details no_format totals0 "now")))).
    + discriminate.
    + discriminate.
Defined.

(** ** Further properties of the report generator *)

Section ParsedCases.

Variable py_int : string -> res Z.
Variable py_float : string -> res float.

(** The loop over the cases appends one record per case element, in
    order, each mirroring its element. *)
Lemma case_loop_cases (cases : list Element) (time0 time : float)
    (acc test_cases : list TestCase) :
  res_fold (case_step py_float) cases (time0, acc) = Ok (time, test_cases) ->
  exists new : list TestCase,
    test_cases = (acc ++ new)%list /\ Forall2 (mirrors py_float) cases new.
Proof.
  revert time0 acc. induction cases as [|c cases IH]; intros time0 acc; csimpl.
  - intros [= <- <-]. exists []. split; [by rewrite app_nil_r | constructor].
  - unfold case_step at 1.
    destruct (float_attr py_float c "time") as [t1|e] eqn:Ht; csimpl; [|done].
    destruct (case_status c) as [st msg] eqn:Hs. intros H.
    apply IH in H as (new & -> & Hall).
    eexists (_ :: new). rewrite <- app_assoc. split; [done|].
    constructor; [|done]. by repeat split.
Qed.

End ParsedCases.

(** X1: a parsed suite mirrors its artifact.  Its name is the [name]
    attribute or else the file's base name, its three counts are the
    converted attributes (0 when absent), it has one case record per
    [testcase] child in document order, each with the child's name, class
    name, converted time and marker status, and its elapsed time is the
    last case's time, or the declared one when there is no case. *)
Theorem X1_parsed_suite_mirrors_artifact
    (py_int : string -> res Z) (py_float : string -> res float)
    (xml_file : string) (root : Element) (s : Suite) :
  parse_root py_int py_float xml_file root = Ok (Some s) ->
  exists (test_suite : Element) (declared : float),
    find root "testsuite" = Some test_suite
    /\ s_name s = default (basename xml_file) (get test_suite "name")
    /\ int_attr py_int test_suite "tests" = Ok (s_tests s)
    /\ int_attr py_int test_suite "failures" = Ok (s_failures s)
    /\ int_attr py_int test_suite "errors" = Ok (s_errors s)
    /\ float_attr py_float test_suite "time" = Ok declared
    /\ Forall2 (mirrors py_float) (findall test_suite "testcase") (s_test_cases s)
    /\ s_time s = List.last (c_time <$> s_test_cases s) declared.
Proof.
  intros H.
  destruct (parsed_suite_time py_int py_float _ _ _ H) as (ts & declared & Hf & Hd & _ & Ht).
  exists ts, declared. revert H. unfold parse_root. rewrite Hf, Hd.
  destruct (int_attr py_int ts "tests") as [tests|]; csimpl; [|done].
  destruct (int_attr py_int ts "failures") as [failures|]; csimpl; [|done].
  destruct (int_attr py_int ts "errors") as [errors|]; csimpl; [|done].
  destruct (res_fold _ _ _) as [[time cases]|] eqn:Hloop; csimpl; [|done].
  intros [= <-]. csimpl in *.
  apply case_loop_cases in Hloop as (new & -> & Hall).
  rewrite app_nil_l in *. done.
Qed.

(** The sample artifact with one case, parsed. *)
Lemma X1_parsed_suite_mirrors_witness :
  exists (test_suite : Element) (declared : float),
    find one_case_suite "testsuite" = Some test_suite
    /\ float_attr read_float test_suite "time" = Ok declared
    /\ Forall2 (mirrors read_float) (findall test_suite "testcase")
         [mkCase "t" "c" 1%float PASS ""].
Proof.
  destruct (X1_parsed_suite_mirrors_artifact read_int read_float "results/a.xml"
              one_case_suite (mkSuite "s" 1 0 0 1%float [mkCase "t" "c" 1%float PASS ""])
              eq_refl)
    as (ts & declared & Hf & _ & _ & _ & _ & Hd & Hall & _).
  by exists ts, declared.
Defined.

(** X2: a file is skipped without any message exactly when it is
    well-formed and its root has no direct child named [testsuite]; so an
    artifact whose root element is itself the suite yields nothing. *)
Theorem X2_silently_skipped_iff_no_suite_child
    (py_int : string -> res Z) (py_float : string -> res float)
    (xml_file : string) (doc : res Element) :
  (parse_xml_file py_int py_float xml_file doc = ([], None)
   <-> exists root : Element, doc = Ok root /\ find root "testsuite" = None)
  /\ parse_xml_file py_int py_float xml_file (Ok root_is_suite) = ([], None).
Proof.
  split; [|reflexivity]. unfold parse_xml_file. split.
  - destruct doc as [root|e]; csimpl; [|done].
    intros H. exists root. split; [done|].
    revert H. unfold parse_root.
    destruct (find root "testsuite") as [ts|]; [|done].
    destruct (int_attr py_int ts "tests"); csimpl; [|done].
    destruct (int_attr py_int ts "failures"); csimpl; [|done].
    destruct (int_attr py_int ts "errors"); csimpl; [|done].
    destruct (float_attr py_float ts "time"); csimpl; [|done].
    destruct (res_fold _ _ _) as [[time cases]|]; csimpl; done.
  - intros (root & -> & Hf). csimpl. unfold parse_root. by rewrite Hf.
Qed.

(** The sum of a list of integers does not depend on the order. *)
Lemma sumZ_Permutation (l l' : list Z) : l ≡ₚ l' -> sumZ l = sumZ l'.
Proof.
  unfold sumZ. induction 1 as [|x l l' _ IH|x y l|l l' l'' _ IH1 _ IH2]; csimpl; lia.
Qed.

(** X3: the order in which the directory lists the files changes
    neither the three integer totals nor the set of suites reported. *)
Theorem X3_counts_independent_of_file_order
    (py_int : string -> res Z) (py_float : string -> res float)
    (files files' : list (string * res Element)) :
  files ≡ₚ files' ->
  let t := fold_left (collect py_int py_float) files totals0 in
  let t' := fold_left (collect py_int py_float) files' totals0 in
  all_results t ≡ₚ all_results t'
  /\ total_tests t = total_tests t'
  /\ total_failures t = total_failures t'
  /\ total_errors t = total_errors t'.
Proof.
  intros Hp. cbn zeta.
  destruct (collect_fold py_int py_float files totals0) as (-> & -> & -> & -> & _).
  destruct (collect_fold py_int py_float files' totals0) as (-> & -> & -> & -> & _).
  csimpl.
  assert (Hs : omap (suite_of py_int py_float) files
               ≡ₚ omap (suite_of py_int py_float) files') by (by rewrite Hp).
  split; [done|].
  repeat split; f_equal; apply sumZ_Permutation; by rewrite Hs.
Qed.

(** Two artifacts listed in either order. *)
Lemma X3_counts_independent_witness :
  let a := ("results/a.xml", Ok one_case_suite) in
  let n := ("results/n.xml", Ok offsetting_suite) in
  total_tests (fold_left (collect read_int read_float) [a; n] totals0)
  = total_tests (fold_left (collect read_int read_float) [n; a] totals0).
Proof.
  cbn zeta.
  apply (X3_counts_independent_of_file_order read_int read_float
           [("results/a.xml", Ok one_case_suite); ("results/n.xml", Ok offsetting_suite)]
           [("results/n.xml", Ok offsetting_suite); ("results/a.xml", Ok one_case_suite)]).
  apply perm_swap.
Defined.

(** X4: the document is, in this order, the summary block, one table row
    per parsed suite in parse order, the end of the table, the detail
    entries of the suites in the same order, and the timestamp; the
    timestamp is the only part that depends on the time of the run. *)
Theorem X4_document_layout
    (format_f : nat -> float -> string) (t : Totals) (now now' : string) :
  render format_f t now
  = ((Head (str_int (total_tests t))
           (str_int (total_tests t - total_failures t - total_errors t))
           (str_int (total_failures t)) (str_int (total_errors t))
           (format_f 2%nat (total_time t))
        :: (row_of format_f <$> all_results t))
     ++ TableEnd :: concat (detail_entry format_f <$> all_results t)
     ++ [Foot now])%list
  /\ length (List.filter is_row (render format_f t now)) = length (all_results t)
  /\ removelast (render format_f t now) = removelast (render format_f t now')
  /\ last (render format_f t now) = Some (Foot now).
Proof.
  split; [by rewrite render_shape|]. split; [|split].
  - by rewrite rows_of_render, length_fmap.
  - rewrite !render_shape.
    rewrite !app_comm_cons, (app_assoc _ _ [Foot now]), (app_assoc _ _ [Foot now']).
    by rewrite !removelast_last.
  - rewrite render_shape.
    rewrite !app_comm_cons, (app_assoc _ _ [Foot now]). apply last_snoc.
Qed.



(** *** The default name of a suite *)

Lemma append_nil_r (s : string) : s +:+ "" = s.
Proof.
  induction s as [|c s IH]; [done|].
  change (String c (s +:+ "") = String c s). by rewrite IH.
Qed.

Lemma append_snoc (acc r : string) (c : ascii) :
  (acc +:+ String c "") +:+ r = acc +:+ String c r.
Proof.
  induction acc as [|a acc IH]; [done|].
  change (String a ((acc +:+ String c "") +:+ r) = String a (acc +:+ String c r)).
  by rewrite IH.
Qed.

Lemma basename_from_free (acc f : string) :
  has_slash f = false -> basename_from acc f = acc +:+ f.
Proof.
  revert acc. induction f as [|c f IH]; intros acc Hf.
  - by rewrite append_nil_r.
  - cbn [has_slash] in Hf. apply orb_false_iff in Hf as [Hc Hf].
    cbn [basename_from]. rewrite Hc, IH by done. apply append_snoc.
Qed.

Lemma basename_from_sep (acc p f : string) :
  basename_from acc (p +:+ String "/" f) = basename_from "" f.
Proof.
  revert acc. induction p as [|c p IH]; intros acc; [done|].
  change (String c p +:+ String "/" f) with (String c (p +:+ String "/" f)).
  cbn [basename_from]. destruct (Ascii.eqb c "/"); apply IH.
Qed.

Lemma ends_with_slash (a : string) :
  ends_with "/" a = true -> exists a' : string, a = a' +:+ "/".
Proof.
  induction a as [|c a IH]; [done|].
  destruct a as [|c' a'].
  - unfold ends_with. cbn. intros H.
    destruct (Ascii.eqb_spec c "/") as [->|]; [by exists ""|done].
  - intros H. destruct IH as [a0 Ha0].
    + revert H. unfold ends_with. cbn [String.length].
      rewrite !Nat.sub_succ, !Nat.sub_0_r. cbn [Nat.leb andb].
      destruct (String.length a') as [|k] eqn:Hk; cbn; done.
    + exists (String c a0). rewrite Ha0. done.
Qed.

Lemma basename_path_join (dir fname : string) :
  has_slash fname = false -> basename (path_join dir fname) = fname.
Proof.
  intros Hf. unfold basename, path_join.
  destruct (String.eqb dir "").
  - by rewrite basename_from_free.
  - destruct (ends_with "/" dir) eqn:He.
    + apply ends_with_slash in He as [a' ->].
      rewrite (append_snoc a' fname "/").
      rewrite basename_from_sep. by rewrite basename_from_free.
    + change (dir +:+ "/" +:+ fname) with (dir +:+ String "/" fname).
      rewrite basename_from_sep. by rewrite basename_from_free.
Qed.

(** X6: a suite without a [name] attribute is reported under the name of
    its file, without the directory, whether or not the directory
    argument ends with a slash. *)
Theorem X6_unnamed_suite_takes_file_name
    (py_int : string -> res Z) (py_float : string -> res float)
    (dir fname : string) (root test_suite : Element) (s : Suite) :
  has_slash fname = false ->
  find root "testsuite" = Some test_suite ->
  get test_suite "name" = None ->
  parse_root py_int py_float (path_join dir fname) root = Ok (Some s) ->
  s_name s = fname.
Proof.
  intros Hf Hts Hname H.
  destruct (parsed_suite_name py_int py_float _ _ _ H) as (ts & Hts' & ->).
  rewrite Hts in Hts'. injection Hts' as <-. rewrite Hname. cbn.
  by apply basename_path_join.
Qed.

(** The unnamed sample suite in a directory given with a trailing slash. *)
Lemma X6_unnamed_suite_witness :
  match parse_root read_int read_float (path_join "results/" "TEST-http.xml")
          unnamed_suite with
  | Ok (Some s) => s_name s = "TEST-http.xml"
  | _ => False
  end.
Proof.
  destruct (parse_root read_int read_float (path_join "results/" "TEST-http.xml")
              unnamed_suite) as [[s|]|e] eqn:Hp.
  - exact (X6_unnamed_suite_takes_file_name read_int read_float "results/"
             "TEST-http.xml" unnamed_suite
             (Elem "testsuite" (attrs [("tests", "3"); ("failures", "1")]) [])
             s eq_refl eq_refl eq_refl Hp).
  - vm_compute in Hp. discriminate Hp.
  - vm_compute in Hp. discriminate Hp.
Defined.

End ReportFacts.

(** * Properties of the integration harness *)

Module HarnessFacts.
Import Harness.

(** Unfolds the primitives and splits on every test met on the way. *)
Ltac unfold_run :=
  unfold try_except, mbind, M_bind, mret, M_ret, print, subprocess_run,
    popen_terminate_wait, os_path_exists, os_path_getsize, read_text, raise,
    resolve in *;
  simpl in *.
Ltac split_run := repeat (case_match; simplify_eq; simpl in *); try done.

Section Control.

Context {Env : Type}.

(** A sequence returns only when both of its parts return. *)
Lemma bind_ret_inv {A B : Type} (m : M Env A) (f : A -> M Env B)
    (w w' : World Env) (b : B) :
  (m ≫= f) w = (Ret b, w') ->
  exists (a : A) (w1 : World Env), m w = (Ret a, w1) /\ f a w1 = (Ret b, w').
Proof.
  unfold mbind, M_bind. destruct (m w) as [[a|e|] w1]; intros H; try discriminate.
  by exists a, w1.
Qed.

Lemma bind_ret_intro {A B : Type} (m : M Env A) (f : A -> M Env B)
    (w w1 : World Env) (a : A) :
  m w = (Ret a, w1) -> (m ≫= f) w = f a w1.
Proof. unfold mbind, M_bind. by intros ->. Qed.

(** A [try]/[finally] returns only when its body returns and the
    cleanup returns after it. *)
Lemma try_finally_ret_inv {A : Type} (body : M Env A) (final : M Env unit)
    (w w' : World Env) (a : A) :
  try_finally Env body final w = (Ret a, w') ->
  exists w1 : World Env, body w = (Ret a, w1) /\ final w1 = (Ret tt, w').
Proof.
  unfold try_finally. destruct (body w) as [[a1|e|] w1]; try discriminate.
  - destruct (final w1) as [[[]|e|] w2] eqn:Hf; intros H; try discriminate.
    injection H as <- <-. by exists w1.
  - destruct (final w1) as [[[]|e'|] w2]; discriminate.
Qed.

(** The cleanup, when it returns, leaves no entry at the path and
    touches nothing else: the files are as before but for that path. *)
Lemma cleanup_ret_inv (p : string) (w w' : World Env) :
  cleanup p w = (Ret tt, w') ->
  fs w' !! resolve w' p = None
  /\ cwd w' = cwd w /\ env w' = env w /\ stdout w' = stdout w /\ calls w' = calls w
  /\ fs w' = delete (resolve w p) (fs w).
Proof.
  unfold cleanup, mbind, M_bind, os_path_exists, os_remove, mret, M_ret, resolve.
  destruct (fs w !! (cwd w ++ components p)%list) as [[content|n]|] eqn:Hp.
  - rewrite bool_decide_true by eauto. rewrite Hp.
    intros [= <-]. cbn. rewrite lookup_delete_eq. done.
  - rewrite bool_decide_true by eauto. rewrite Hp. discriminate.
  - rewrite bool_decide_false by (intros [? ?]; congruence).
    intros [= <-]. rewrite delete_id by done. done.
Qed.

(** The cleanup returns only when no directory is at the path. *)
Lemma cleanup_ret_not_directory (p : string) (w w' : World Env) (n : Z) :
  cleanup p w = (Ret tt, w') -> fs w !! resolve w p <> Some (Directory n).
Proof.
  unfold cleanup, mbind, M_bind, os_path_exists, os_remove, mret, M_ret, resolve.
  intros H Hd. rewrite bool_decide_true in H by (rewrite Hd; eauto).
  rewrite Hd in H. discriminate H.
Qed.

(** The cleanup never hangs, and changes nothing when it raises. *)
Lemma cleanup_outcome (p : string) (w : World Env) :
  (exists w', cleanup p w = (Ret tt, w')) \/ (exists e, cleanup p w = (Raise e, w)).
Proof.
  unfold cleanup, mbind, M_bind, os_path_exists, os_remove, mret, M_ret, resolve.
  destruct (fs w !! (cwd w ++ components p)%list) as [[content|n]|] eqn:Hp.
  - rewrite bool_decide_true by eauto. rewrite Hp. eauto.
  - rewrite bool_decide_true by eauto. rewrite Hp. eauto.
  - rewrite bool_decide_false by (intros [? ?]; congruence). eauto.
Qed.

Lemma print_inv (s : string) (w w' : World Env) (r : outcome unit) :
  print Env s w = (r, w') ->
  r = Ret tt /\ cwd w' = cwd w /\ fs w' = fs w /\ env w' = env w
  /\ stdout w' = (stdout w ++ [s])%list /\ calls w' = calls w.
Proof. unfold print. by intros [= <- <-]. Qed.

End Control.

Section Scenarios.

Context {Env : Type} (D : Downloader Env).

(** Scenario A, when it returns: one launch, then the cleanup. *)
Lemma test_http_download_ret (w w' : World Env) (b : bool) :
  test_http_download D w = (Ret b, w') ->
  let cmd := ["./bin/falcon-cli"; "https://httpbin.org/json"; "-o";
              "test_download.json"] in
  cwd w' = cwd w
  /\ calls w' = (calls w ++ [cmd])%list
  /\ fs w' = delete (cwd w ++ components "test_download.json")%list (after_run D cmd w).1
  /\ env w' = (after_run D cmd w).2
  /\ fs w' !! resolve w' "test_download.json" = None.
Proof.
  unfold test_http_download. intros H.
  apply bind_ret_inv in H as ([] & w1 & Hp & H).
  apply print_inv in Hp as (_ & Hc1 & Hf1 & He1 & _ & Hk1).
  apply try_finally_ret_inv in H as (w2 & Hb & Hcl).
  apply cleanup_ret_inv in Hcl as (Hnone & Hc & He & _ & Hk & Hfs).
  cbn zeta. unfold after_run. cbn [fst snd].
  assert (cwd w2 = cwd w1 /\ calls w2 = (calls w1 ++
            [["./bin/falcon-cli"; "https://httpbin.org/json"; "-o";
              "test_download.json"]])%list
          /\ fs w2 = (run_child D ["./bin/falcon-cli"; "https://httpbin.org/json";
                        "-o"; "test_download.json"] (cwd w1) (fs w1) (env w1)).1.2
          /\ env w2 = (run_child D ["./bin/falcon-cli"; "https://httpbin.org/json";
                        "-o"; "test_download.json"] (cwd w1) (fs w1) (env w1)).2)
    as (Hc2 & Hk2 & Hf2 & He2).
  { clear -Hb. unfold_run. split_run. }
  rewrite Hc1, Hf1, He1 in Hf2, He2.
  unfold resolve in Hfs. rewrite Hc2, Hc1, Hf2 in Hfs.
  repeat split; [congruence | congruence | done | congruence | done].
Qed.

(** One item of scenario B, when its iteration ends normally: one
    launch, then the cleanup of the item's own destination. *)
Lemma download_one_ret (n n' : Z) (url filename : string) (w w' : World Env) :
  download_one D n (url, filename) w = (Ret n', w') ->
  let cmd := ["./bin/falcon-cli"; url; "-o"; filename] in
  cwd w' = cwd w
  /\ calls w' = (calls w ++ [cmd])%list
  /\ fs w' = delete (cwd w ++ components filename)%list (after_run D cmd w).1
  /\ env w' = (after_run D cmd w).2
  /\ fs w' !! resolve w' filename = None
  /\ (n' = n \/ n' = n + 1).
Proof.
  unfold download_one. intros H.
  apply bind_ret_inv in H as ([] & w1 & Hp & H).
  apply print_inv in Hp as (_ & Hc1 & Hf1 & He1 & _ & Hk1).
  apply try_finally_ret_inv in H as (w2 & Hb & Hcl).
  apply cleanup_ret_inv in Hcl as (Hnone & Hc & He & _ & Hk & Hfs).
  cbn zeta. unfold after_run. cbn [fst snd].
  assert (cwd w2 = cwd w1
          /\ calls w2 = (calls w1 ++ [["./bin/falcon-cli"; url; "-o"; filename]])%list
          /\ fs w2 = (run_child D ["./bin/falcon-cli"; url; "-o"; filename]
                        (cwd w1) (fs w1) (env w1)).1.2
          /\ env w2 = (run_child D ["./bin/falcon-cli"; url; "-o"; filename]
                        (cwd w1) (fs w1) (env w1)).2
          /\ (n' = n \/ n' = n + 1))
    as (Hc2 & Hk2 & Hf2 & He2 & Hn).
  { clear -Hb. unfold_run. split_run. all: repeat split; auto. }
  rewrite Hc1, Hf1, He1 in Hf2, He2.
  unfold resolve in Hfs. rewrite Hc2, Hc1, Hf2 in Hfs.
  repeat split; [congruence | congruence | done | congruence | done | done].
Qed.

(** Scenario C, when it returns: the interrupted launch ended, the
    second launch followed, then the cleanup. *)
Lemma test_resume_ret (w w' : World Env) (b : bool) :
  test_resume D w = (Ret b, w') ->
  let cmd := ["./bin/falcon-cli"; "https://httpbin.org/bytes/1024"; "-o";
              "resume_test.bin"] in
  (interrupt_child D cmd (cwd w) (fs w) (env w)).1.1 = Stopped
  /\ cwd w' = cwd w
  /\ calls w' = (calls w ++ [cmd; cmd])%list
  /\ fs w' !! resolve w' "resume_test.bin" = None.
Proof.
  unfold test_resume. intros H.
  apply bind_ret_inv in H as ([] & w1 & Hp & H).
  apply print_inv in Hp as (_ & Hc1 & Hf1 & He1 & _ & Hk1).
  apply bind_ret_inv in H as ([] & w2 & Hsp & H).
  apply bind_ret_inv in H as (ex & w3 & Hex & H).
  apply bind_ret_inv in H as (partial_size & w4 & Hps & H).
  apply try_finally_ret_inv in H as (w5 & Hb & Hcl).
  apply cleanup_ret_inv in Hcl as (Hnone & Hc & He & _ & Hk & Hfs).
  cbn zeta.
  assert ((interrupt_child D ["./bin/falcon-cli"; "https://httpbin.org/bytes/1024";
             "-o"; "resume_test.bin"] (cwd w1) (fs w1) (env w1)).1.1 = Stopped
          /\ cwd w2 = cwd w1
          /\ calls w2 = (calls w1 ++ [["./bin/falcon-cli";
               "https://httpbin.org/bytes/1024"; "-o"; "resume_test.bin"]])%list)
    as (Hst & Hc2 & Hk2).
  { clear -Hsp. unfold_run. split_run. }
  assert (cwd w3 = cwd w2 /\ calls w3 = calls w2) as (Hc3 & Hk3).
  { clear -Hex. unfold_run. by simplify_eq. }
  assert (cwd w4 = cwd w3 /\ calls w4 = calls w3) as (Hc4 & Hk4).
  { clear -Hps. destruct ex; unfold_run; split_run. by simplify_eq. }
  assert (cwd w5 = cwd w4
          /\ calls w5 = (calls w4 ++ [["./bin/falcon-cli";
               "https://httpbin.org/bytes/1024"; "-o"; "resume_test.bin"]])%list)
    as (Hc5 & Hk5).
  { clear -Hb. unfold_run. split_run. }
  rewrite Hc1, Hf1, He1 in Hst.
  repeat split; [done | congruence | | done].
  rewrite Hk, Hk5, Hk4, Hk3, Hk2, Hk1. by rewrite <- app_assoc.
Qed.

(** The summary of three verdicts: one line each, the count, and exit
    status 0 exactly when the three are [True]. *)
Lemma summary_three (a b c : bool) (w : World Env) :
  summary [("Basic HTTP Download", a); ("Multiple Downloads", b);
           ("Resume Functionality", c)] w
  = (Ret (if a && b && c then 0 else 1),
     mkWorld (cwd w) (fs w) (env w)
       (stdout w ++
          [nl +:+ "=== Test Summary ===";
           ljust 25 "Basic HTTP Download" +:+ " " +:+ (if a then "✅ PASS" else "❌ FAIL");
           ljust 25 "Multiple Downloads" +:+ " " +:+ (if b then "✅ PASS" else "❌ FAIL");
           ljust 25 "Resume Functionality" +:+ " " +:+ (if c then "✅ PASS" else "❌ FAIL");
           nl +:+ "Overall: "
              +:+ str_int (Z.b2z a + Z.b2z b + Z.b2z c) +:+ "/3 tests passed";
           if a && b && c then nl +:+ "🎉 All tests passed!"
           else nl +:+ "⚠️  Some tests failed"])%list
       (calls w)).
Proof.
  destruct a, b, c; unfold summary, summary_line, for_each; unfold_run;
    rewrite <- ?app_assoc; reflexivity.
Qed.

(** Scenario B, when it returns: three launches in the order of the
    list, each followed by the cleanup of its own destination. *)
Lemma test_multiple_downloads_ret (w w' : World Env) (b : bool) :
  test_multiple_downloads D w = (Ret b, w') ->
  cwd w' = cwd w
  /\ calls w' = (calls w ++
       [["./bin/falcon-cli"; "https://httpbin.org/uuid"; "-o"; "uuid.json"];
        ["./bin/falcon-cli"; "https://httpbin.org/ip"; "-o"; "ip.json"];
        ["./bin/falcon-cli"; "https://httpbin.org/user-agent"; "-o";
         "user-agent.json"]])%list
  /\ fs w' !! resolve w' "user-agent.json" = None
  /\ (leaves_other_destinations D ->
      fs w' !! resolve w' "uuid.json" = None
      /\ fs w' !! resolve w' "ip.json" = None).
Proof.
  unfold test_multiple_downloads, urls, for_each. intros H.
  apply bind_ret_inv in H as ([] & w0 & Hp & H).
  apply print_inv in Hp as (_ & Hc0 & Hf0 & He0 & _ & Hk0).
  apply bind_ret_inv in H as (n3 & w3 & Hloop & H).
  apply bind_ret_inv in Hloop as (n1 & w1 & H1 & Hloop).
  apply bind_ret_inv in Hloop as (n2 & w2 & H2 & Hloop).
  apply bind_ret_inv in Hloop as (n3' & w3' & H3 & Hloop).
  unfold mret, M_ret in Hloop. injection Hloop as -> ->.
  apply bind_ret_inv in H as ([] & w4 & Hp & H).
  apply print_inv in Hp as (_ & Hc4 & Hf4 & He4 & _ & Hk4).
  unfold mret, M_ret in H. injection H as _ <-.
  apply download_one_ret in H1 as (Hc1 & Hk1 & Hf1 & _ & Hn1 & _).
  apply download_one_ret in H2 as (Hc2 & Hk2 & Hf2 & _ & Hn2 & _).
  apply download_one_ret in H3 as (Hc3 & Hk3 & Hf3 & _ & Hn3 & _).
  cbn zeta in *. unfold after_run, resolve in *. cbn [fst snd] in *.
  rewrite Hc4, Hf4, Hk4.
  split; [congruence|]. split.
  { rewrite Hk3, Hk2, Hk1, Hk0, <- !app_assoc. done. }
  split; [done|]. intros Hkeep.
  assert (Hu2 : fs w2 !! (cwd w2 ++ components "uuid.json")%list = None).
  { rewrite Hf2, Hc2. apply lookup_delete_None. right.
    apply (Hkeep "https://httpbin.org/ip" "ip.json" "uuid.json");
      [cbn; auto | vm_compute; discriminate | done]. }
  split.
  - rewrite Hf3, Hc3. apply lookup_delete_None. right.
    apply (Hkeep "https://httpbin.org/user-agent" "user-agent.json" "uuid.json");
      [cbn; auto | vm_compute; discriminate | done].
  - rewrite Hf3, Hc3. apply lookup_delete_None. right.
    apply (Hkeep "https://httpbin.org/user-agent" "user-agent.json" "ip.json");
      [cbn; auto | vm_compute; discriminate | done].
Qed.

(** A launch that is a process-level failure: the child could not be
    started, overran the timeout, exited with a nonzero status, or wrote
    output that is not text. *)
Definition process_failure (r : run_result) : Prop :=
  match r with
  | Completed rc _ _ => rc <> 0
  | TimedOut | LaunchFailed _ | Undecodable _ => True
  end.

(** Scenario A guards its launch: a process-level failure gives the
    verdict [False], provided the cleanup can remove what is at the
    destination. *)
Lemma test_http_download_guarded (w : World Env) :
  let cmd := ["./bin/falcon-cli"; "https://httpbin.org/json"; "-o";
              "test_download.json"] in
  process_failure (run_child D cmd (cwd w) (fs w) (env w)).1.1 ->
  (forall n : Z,
      (after_run D cmd w).1 !! (cwd w ++ components "test_download.json")%list
      <> Some (Directory n)) ->
  exists w' : World Env, test_http_download D w = (Ret false, w').
Proof.
  cbn zeta. unfold after_run, test_http_download, try_finally, cleanup, os_remove.
  unfold_run.
  destruct (run_child D _ (cwd w) (fs w) (env w)) as [[r files] e].
  cbn [fst snd]. intros Hr Hdir.
  destruct r as [rc out err| |msg|msg]; cbn in Hr |- *;
    rewrite ?(proj2 (Z.eqb_neq rc 0) Hr); cbn;
    (destruct (files !! _) as [[content|n]|] eqn:Hd;
     [ rewrite bool_decide_true by eauto; cbn; rewrite Hd; eauto
     | by destruct (Hdir n)
     | rewrite bool_decide_false by (intros [? ?]; congruence); eauto ]).
Qed.

(** Scenario C does not guard its first launch: when the child cannot
    be started, the scenario raises the error and gives no verdict. *)
Lemma test_resume_unguarded (w : World Env) (msg : string) :
  let cmd := ["./bin/falcon-cli"; "https://httpbin.org/bytes/1024"; "-o";
              "resume_test.bin"] in
  (interrupt_child D cmd (cwd w) (fs w) (env w)).1.1 = SpawnFailed msg ->
  (test_resume D w).1 = Raise (OSError msg).
Proof.
  cbn zeta. unfold test_resume. unfold_run.
  destruct (interrupt_child D _ (cwd w) (fs w) (env w)) as [[r files] e].
  cbn [fst snd]. by intros ->.
Qed.

End Scenarios.

(** ** Further properties of the harness *)

Section Verdicts.

Context {Env : Type} (D : Downloader Env).

(** What the executable cannot tell apart gives the same count. *)
Lemma item_ok_same (item : string * string) (w1 w2 : World Env) :
  same_outside w1 w2 -> item_ok D item w1 = item_ok D item w2.
Proof. intros (Hc & Hf & He). unfold item_ok, after_run. by rewrite Hc, Hf, He. Qed.

Lemma item_leaves_same (item : string * string) (w1 w2 : World Env) :
  same_outside w1 w2 -> same_outside (item_leaves D item w1) (item_leaves D item w2).
Proof.
  intros (Hc & Hf & He). unfold same_outside, item_leaves, after_run. cbn.
  by rewrite Hc, Hf, He.
Qed.

Lemma count_ok_same (items : list (string * string)) (w1 w2 : World Env) :
  same_outside w1 w2 -> count_ok D items w1 = count_ok D items w2.
Proof.
  revert w1 w2. induction items as [|item items IH]; intros w1 w2 Hs; [done|].
  cbn [count_ok]. rewrite (item_ok_same _ _ _ Hs).
  by rewrite (IH _ _ (item_leaves_same item _ _ Hs)).
Qed.

(** One iteration adds one to the count exactly for a successful item. *)
Lemma download_one_count (n n' : Z) (item : string * string) (w w' : World Env) :
  download_one D n item w = (Ret n', w') ->
  n' = n + (if item_ok D item w then 1 else 0)
  /\ same_outside w' (item_leaves D item w).
Proof.
  destruct item as [url filename]. intros H.
  pose proof (download_one_ret D _ _ _ _ _ _ H) as (Hc & _ & Hf & He & _ & _).
  cbn zeta in Hf, He. split; [|by repeat split].
  unfold download_one in H.
  apply bind_ret_inv in H as ([] & w1 & Hp & H).
  apply print_inv in Hp as (_ & Hc1 & Hf1 & He1 & _ & _).
  apply try_finally_ret_inv in H as (w2 & Hb & _).
  clear Hc Hf He. unfold item_ok, after_run. cbn [fst snd].
  unfold_run. rewrite Hc1, Hf1, He1 in Hb. clear Hc1 Hf1 He1.
  destruct (run_child D _ (cwd w) (fs w) (env w)) as [[r files] e].
  cbn [fst snd] in *.
  destruct r as [rc out err| |msg|msg]; cbn in Hb; [|simplify_eq; lia..].
  destruct (rc =? 0)%Z; cbn in Hb |- *; [|simplify_eq; lia].
  destruct (bool_decide _); simplify_eq; lia.
Qed.

(** The loop of scenario B counts the successful items, each judged in
    the world the items before it leave. *)
Lemma download_loop_count (items : list (string * string)) (n n' : Z)
    (w w' : World Env) :
  for_each (download_one D) items n w = (Ret n', w') ->
  n' = n + count_ok D items w.
Proof.
  revert n w. induction items as [|item items IH]; intros n w H.
  - cbn in H. injection H as <- _. cbn. lia.
  - cbn [for_each] in H.
    apply bind_ret_inv in H as (n1 & w1 & H1 & H).
    apply download_one_count in H1 as (-> & Hs).
    apply IH in H as ->. cbn [count_ok].
    rewrite (count_ok_same items _ _ Hs). lia.
Qed.

End Verdicts.



(** X8: scenario A returns [True] exactly when the launch gives a
    result with status 0, the destination is then a regular file whose
    bytes decode as text, and the text contains ["slideshow"], quotes
    included. *)
Theorem X8_single_download_verdict
    {Env : Type} (D : Downloader Env) (w : World Env) :
  let cmd := ["./bin/falcon-cli"; "https://httpbin.org/json"; "-o";
              "test_download.json"] in
  (exists w' : World Env, test_http_download D w = (Ret true, w'))
  <-> exists out err content text : string,
        (run_child D cmd (cwd w) (fs w) (env w)).1.1 = Completed 0 out err
        /\ (after_run D cmd w).1 !! (cwd w ++ components "test_download.json")%list
           = Some (File content)
        /\ decode_text D content = Ok text
        /\ contains (dq +:+ "slideshow" +:+ dq) text = true.
Proof.
  cbn zeta. unfold after_run. cbn [fst snd]. split.
  - intros [w' H]. unfold test_http_download in H.
    apply bind_ret_inv in H as ([] & w1 & Hp & H).
    apply print_inv in Hp as (_ & Hc1 & Hf1 & He1 & _ & _).
    apply try_finally_ret_inv in H as (w2 & Hb & _).
    unfold_run. rewrite Hc1, Hf1, He1 in Hb. clear Hc1 Hf1 He1.
    destruct (run_child D _ (cwd w) (fs w) (env w)) as [[r files] e].
    cbn [fst snd] in *.
    destruct r as [rc out err| |msg|msg]; cbn in Hb; [|simplify_eq..].
    destruct (rc =? 0)%Z eqn:Hrc; cbn in Hb; [|simplify_eq].
    apply Z.eqb_eq in Hrc as ->.
    destruct (files !! _) as [[content|n]|] eqn:Hd.
    + rewrite bool_decide_true in Hb by eauto. cbn in Hb. rewrite Hd in Hb.
      cbn in Hb. rewrite Hd in Hb. cbn in Hb.
      destruct (decode_text D content) as [text|msg] eqn:Hdec; cbn in Hb;
        [|simplify_eq].
      destruct (contains _ text) eqn:Hcont; cbn in Hb; [|simplify_eq].
      by exists out, err, content, text.
    + rewrite bool_decide_true in Hb by eauto. cbn in Hb. rewrite Hd in Hb.
      cbn in Hb. rewrite Hd in Hb. cbn in Hb. simplify_eq.
    + rewrite bool_decide_false in Hb by (intros [? ?]; congruence).
      cbn in Hb. simplify_eq.
  - intros (out & err & content & text & Hr & Hd & Hdec & Hcont).
    unfold test_http_download, try_finally, cleanup, os_remove. unfold_run.
    destruct (run_child D _ (cwd w) (fs w) (env w)) as [[r files] e].
    cbn [fst snd] in *. subst r. cbn.
    rewrite bool_decide_true by eauto. cbn. rewrite Hd. cbn. rewrite Hd. cbn.
    rewrite Hdec. cbn. rewrite Hcont. cbn.
    rewrite bool_decide_true by eauto. cbn. rewrite Hd. eauto.
Qed.

(** X9: scenario C returns [True] exactly when the interrupted child
    exits, the second launch gives a result (the child ran to its end in
    time and its output is text) with status 0, and the destination is
    then a regular file of exactly 1024 bytes; the size of the partial
    file plays no part. *)
Theorem X9_resume_verdict
    {Env : Type} (D : Downloader Env) (w : World Env) :
  let cmd := ["./bin/falcon-cli"; "https://httpbin.org/bytes/1024"; "-o";
              "resume_test.bin"] in
  let wi := after_interrupt D cmd w in
  (exists w' : World Env, test_resume D w = (Ret true, w'))
  <-> (interrupt_child D cmd (cwd w) (fs w) (env w)).1.1 = Stopped
      /\ exists out err content : string,
           (run_child D cmd (cwd wi) (fs wi) (env wi)).1.1 = Completed 0 out err
           /\ (after_run D cmd wi).1 !! (cwd w ++ components "resume_test.bin")%list
              = Some (File content)
           /\ String.length content = 1024%nat.
Proof.
  cbn zeta. unfold after_run, after_interrupt. cbn [fst snd cwd fs env]. split.
  - intros [w' H]. unfold test_resume in H.
    apply bind_ret_inv in H as ([] & w1 & Hp & H).
    apply print_inv in Hp as (_ & Hc1 & Hf1 & He1 & _ & _).
    apply bind_ret_inv in H as ([] & w2 & Hsp & H).
    apply bind_ret_inv in H as (ex & w3 & Hex & H).
    apply bind_ret_inv in H as (partial_size & w4 & Hps & H).
    apply try_finally_ret_inv in H as (w5 & Hb & Hcl).
    unfold_run. rewrite Hc1, Hf1, He1 in Hsp.
    destruct (interrupt_child D _ (cwd w) (fs w) (env w)) as [[sr files1] e1].
    cbn [fst snd] in *.
    destruct sr; [|simplify_eq..]. split; [done|].
    assert (Hw4 : cwd w4 = cwd w /\ fs w4 = files1 /\ env w4 = e1).
    { assert (Hw3 : cwd w3 = cwd w /\ fs w3 = files1 /\ env w3 = e1).
      { by simplify_eq. }
      destruct Hw3 as (Hc3 & Hf3 & He3). rewrite <- Hc3, <- Hf3, <- He3.
      clear -Hps. destruct ex; unfold_run; split_run; by simplify_eq. }
    destruct Hw4 as (Hc4 & Hf4 & He4).
    pose proof (fun n => cleanup_ret_not_directory _ _ _ n Hcl) as Hnd.
    unfold_run. rewrite Hc4, Hf4, He4 in Hb. clear -Hb Hnd Hc4.
    destruct (run_child D _ (cwd w) files1 e1) as [[r files] e].
    cbn [fst snd] in *.
    destruct r as [rc out err| |msg|msg]; cbn in Hb; [|simplify_eq..].
    destruct (rc =? 0)%Z eqn:Hrc; cbn in Hb; [|simplify_eq].
    apply Z.eqb_eq in Hrc as ->.
    destruct (files !! _) as [[content|n]|] eqn:Hd.
    + rewrite bool_decide_true in Hb by eauto. cbn in Hb. rewrite Hd in Hb.
      cbn in Hb.
      destruct (Z.of_nat (String.length content) =? 1024)%Z eqn:Hlen; cbn in Hb;
        [|simplify_eq].
      apply Z.eqb_eq in Hlen. exists out, err, content. repeat split; try done. lia.
    + rewrite bool_decide_true in Hb by eauto. cbn in Hb. rewrite Hd in Hb.
      cbn in Hb. exfalso.
      destruct (n =? 1024)%Z; cbn in Hb; simplify_eq;
        apply (Hnd n); cbn; done.
    + rewrite bool_decide_false in Hb by (intros [? ?]; congruence).
      cbn in Hb. simplify_eq.
  - intros (Hst & out & err & content & Hr & Hd & Hlen).
    unfold test_resume, try_finally, cleanup, os_remove. unfold_run.
    destruct (interrupt_child D _ (cwd w) (fs w) (env w)) as [[sr files1] e1].
    cbn [fst snd] in *. subst sr. cbn.
    destruct (files1 !! (cwd w ++ components "resume_test.bin")%list)
      as [[c0|n0]|] eqn:Hd0.
    + rewrite bool_decide_true by eauto. cbn. rewrite Hd0. cbn.
      destruct (run_child D _ (cwd w) files1 e1) as [[r files] e].
      cbn [fst snd] in *. subst r. cbn.
      rewrite bool_decide_true by eauto. cbn. rewrite Hd. cbn.
      rewrite Hlen. change (Z.of_nat 1024 =? 1024)%Z with true. cbn.
      rewrite bool_decide_true by eauto. cbn. rewrite Hd. eauto.
    + rewrite bool_decide_true by eauto. cbn. rewrite Hd0. cbn.
      destruct (run_child D _ (cwd w) files1 e1) as [[r files] e].
      cbn [fst snd] in *. subst r. cbn.
      rewrite bool_decide_true by eauto. cbn. rewrite Hd. cbn.
      rewrite Hlen. change (Z.of_nat 1024 =? 1024)%Z with true. cbn.
      rewrite bool_decide_true by eauto. cbn. rewrite Hd. eauto.
    + rewrite bool_decide_false by (intros [? ?]; congruence). cbn.
      destruct (run_child D _ (cwd w) files1 e1) as [[r files] e].
      cbn [fst snd] in *. subst r. cbn.
      rewrite bool_decide_true by eauto. cbn. rewrite Hd. cbn.
      rewrite Hlen. change (Z.of_nat 1024 =? 1024)%Z with true. cbn.
      rewrite bool_decide_true by eauto. cbn. rewrite Hd. eauto.
Qed.

(** X10: the start-up checks.  When the working directory neither has a
    [build] directory nor is named [build], or when [bin/falcon-cli] is
    missing in the build directory, the process prints its diagnostic and
    exits with status 1 without launching anything; when [build] exists
    but is a regular file, [os.chdir] raises and the process ends with a
    traceback; otherwise the scenarios run in the build directory. *)
Theorem X10_startup_checks
    {Env : Type} (D : Downloader Env) (w : World Env) :
  let banner := "=== Falcon Downloader Integration Tests ===" +:+ nl in
  (fs w !! (cwd w ++ ["build"])%list = None ->
   List.last (cwd w) "" <> "build" ->
   script D w
   = (Exited 1,
      mkWorld (cwd w) (fs w) (env w)
        (stdout w ++ [banner; "Error: Please run from project root or build directory"])
        (calls w)))
  /\ (forall content : string,
        fs w !! (cwd w ++ ["build"])%list = Some (File content) ->
        script D w
        = (Crashed (OSError "Not a directory"),
           mkWorld (cwd w) (fs w) (env w) (stdout w ++ [banner]) (calls w)))
  /\ (forall dir : list string,
        build_cwd w = Some dir ->
        fs w !! (dir ++ ["bin"; "falcon-cli"])%list = None ->
        script D w
        = (Exited 1,
           mkWorld dir (fs w) (env w)
             (stdout w ++
                [banner; "Error: falcon-cli not found in build/bin/";
                 "Please run 'cmake --build build --target falcon-cli' first"])
             (calls w)))
  /\ (forall dir : list string,
        build_cwd w = Some dir ->
        is_Some (fs w !! (dir ++ ["bin"; "falcon-cli"])%list) ->
        main D w
        = run_tests D (mkWorld dir (fs w) (env w) (stdout w ++ [banner]) (calls w))).
Proof.
  cbn zeta. unfold script, main, build_cwd, os_chdir, cwd_basename, sys_exit.
  unfold_run.
  change (components "build") with ["build"].
  change (components "bin/falcon-cli") with ["bin"; "falcon-cli"].
  split; [|split; [|split]].
  - intros Hb Hl. rewrite Hb. rewrite bool_decide_false by (intros [? ?]; congruence).
    cbn. destruct (String.eqb_spec (List.last (cwd w) "") "build") as [|_]; [done|].
    cbn. by rewrite <- app_assoc.
  - intros content Hb. rewrite Hb. rewrite bool_decide_true by eauto.
    cbn. by rewrite Hb.
  - intros dir Hdir Hexe.
    destruct (fs w !! (cwd w ++ ["build"])%list) as [[content|n]|] eqn:Hb;
      [done| |].
    + injection Hdir as <-. rewrite bool_decide_true by eauto. cbn. rewrite Hb. cbn.
      rewrite Hexe. rewrite bool_decide_false by (intros [? ?]; congruence).
      cbn. by rewrite <- !app_assoc.
    + rewrite bool_decide_false by (intros [? ?]; congruence). cbn.
      destruct (String.eqb (List.last (cwd w) "") "build"); [|done].
      injection Hdir as <-. cbn. rewrite Hexe.
      rewrite bool_decide_false by (intros [? ?]; congruence).
      cbn. by rewrite <- !app_assoc.
  - intros dir Hdir Hexe.
    destruct (fs w !! (cwd w ++ ["build"])%list) as [[content|n]|] eqn:Hb;
      [done| |].
    + injection Hdir as <-. rewrite bool_decide_true by eauto. cbn. rewrite Hb. cbn.
      rewrite bool_decide_true by done. done.
    + rewrite bool_decide_false by (intros [? ?]; congruence). cbn.
      destruct (String.eqb (List.last (cwd w) "") "build"); [|done].
      injection Hdir as <-. cbn. rewrite bool_decide_true by done. done.
Qed.

(** From the project root the sample tree passes the checks and the
    scenarios run inside [build]; from [bin] the first check fails. *)
Lemma X10_startup_checks_witness :
  main obedient project_root
  = run_tests obedient
      (mkWorld ["falcon"; "build"] (fs project_root) tt
         ["=== Falcon Downloader Integration Tests ===" +:+ nl] [])
  /\ (script obedient (mkWorld ["falcon"; "build"; "bin"] (fs project_root) tt [] [])).1
     = Exited 1.
Proof.
  split.
  - apply (proj2 (proj2 (proj2 (X10_startup_checks obedient project_root)))
             ["falcon"; "build"]).
    + vm_compute. reflexivity.
    + vm_compute. eauto.
  - rewrite (proj1 (X10_startup_checks obedient
                      (mkWorld ["falcon"; "build"; "bin"] (fs project_root) tt [] []))).
    + reflexivity.
    + vm_compute. reflexivity.
    + vm_compute. discriminate.
Defined.

(** X11: scenario A always ends, and no failure of the launch leaves it
    as an exception.  It returns a verdict unless the launch leaves a
    directory at the destination; then the [os.remove] of the [finally]
    clause raises, and that error replaces the verdict. *)
Theorem X11_single_download_always_ends
    {Env : Type} (D : Downloader Env) (w : World Env) :
  let cmd := ["./bin/falcon-cli"; "https://httpbin.org/json"; "-o";
              "test_download.json"] in
  match (after_run D cmd w).1 !! (cwd w ++ components "test_download.json")%list with
  | Some (Directory _) =>
      (test_http_download D w).1 = Raise (OSError "Is a directory")
  | Some (File _) | None =>
      exists b : bool,
        (test_http_download D w).1 = Ret b
        /\ fs (test_http_download D w).2
             !! (cwd w ++ components "test_download.json")%list = None
  end.
Proof.
  cbn zeta. unfold after_run, test_http_download, try_finally, cleanup, os_remove.
  unfold_run.
  destruct (run_child D _ (cwd w) (fs w) (env w)) as [[r files] e].
  cbn [fst snd].
  destruct (files !! _) as [[content|n]|] eqn:Hd.
  - destruct r as [rc out err| |msg|msg]; cbn;
      [destruct (rc =? 0)%Z; cbn|..];
      rewrite ?bool_decide_true by eauto; cbn; rewrite ?Hd; cbn; rewrite ?Hd; cbn;
      try (destruct (decode_text D content) as [text|emsg]; cbn;
           [destruct (contains _ text); cbn|]);
      rewrite ?bool_decide_true by eauto; cbn; rewrite ?Hd; cbn;
      eexists; (split; [reflexivity|]); cbn; apply lookup_delete_eq.
  - destruct r as [rc out err| |msg|msg]; cbn;
      [destruct (rc =? 0)%Z; cbn|..];
      rewrite ?bool_decide_true by eauto; cbn; rewrite ?Hd; cbn; rewrite ?Hd; cbn;
      rewrite ?bool_decide_true by eauto; cbn; rewrite ?Hd; cbn; reflexivity.
  - assert (Hno : ~ is_Some (files !! (cwd w ++ components "test_download.json")%list))
      by (rewrite Hd; intros [? ?]; congruence).
    destruct r as [rc out err| |msg|msg]; cbn;
      [destruct (rc =? 0)%Z; cbn|..];
      rewrite ?bool_decide_false by done; cbn;
      rewrite ?bool_decide_false by done; cbn;
      eexists; (split; [reflexivity|]); cbn; done.
Qed.

(** X12: the three ways the interrupted launch of scenario C can end.
    When the child cannot be started the error leaves the scenario; when
    the child does not exit after [terminate], [proc.wait()] never
    returns and nothing more is launched or printed; when it exits, the
    second launch always follows, and the scenario returns a verdict
    unless that launch leaves a directory at the destination. *)
Theorem X12_resume_interrupt_outcomes
    {Env : Type} (D : Downloader Env) (w : World Env) :
  let cmd := ["./bin/falcon-cli"; "https://httpbin.org/bytes/1024"; "-o";
              "resume_test.bin"] in
  let wi := after_interrupt D cmd w in
  let r := test_resume D w in
  match (interrupt_child D cmd (cwd w) (fs w) (env w)).1.1 with
  | SpawnFailed msg =>
      r.1 = Raise (OSError msg) /\ calls r.2 = (calls w ++ [cmd])%list
  | NeverExits =>
      r.1 = Hang /\ calls r.2 = (calls w ++ [cmd])%list
      /\ stdout r.2 = (stdout w ++ [nl +:+ "Testing resume functionality..."])%list
  | Stopped =>
      calls r.2 = (calls w ++ [cmd; cmd])%list
      /\ match (after_run D cmd wi).1 !! (cwd w ++ components "resume_test.bin")%list with
         | Some (Directory _) => r.1 = Raise (OSError "Is a directory")
         | Some (File _) | None => exists b : bool, r.1 = Ret b
         end
  end.
Proof.
  cbn zeta. unfold after_run, after_interrupt, test_resume, try_finally, cleanup,
    os_remove.
  unfold_run.
  destruct (interrupt_child D _ (cwd w) (fs w) (env w)) as [[sr files1] e1].
  cbn [fst snd].
  destruct sr as [|msg|]; cbn; [|done..].
  assert (Hcalls : forall a b : list (list string),
             ((calls w ++ a) ++ b = calls w ++ a ++ b)%list)
    by (intros; by rewrite <- app_assoc).
  destruct (files1 !! (cwd w ++ components "resume_test.bin")%list)
    as [[c0|n0]|] eqn:Hd0;
    [ rewrite bool_decide_true by eauto; cbn; rewrite Hd0; cbn
    | rewrite bool_decide_true by eauto; cbn; rewrite Hd0; cbn
    | rewrite bool_decide_false by (intros [? ?]; congruence); cbn ].
  all: destruct (run_child D _ (cwd w) files1 e1) as [[r files] e]; cbn [fst snd].
  all: destruct (files !! (cwd w ++ components "resume_test.bin")%list)
         as [[content|n]|] eqn:Hd.
  all: destruct r as [rc out err| |msg|msg]; cbn; [destruct (rc =? 0)%Z; cbn|..].
  all: rewrite ?bool_decide_true by eauto;
       rewrite ?bool_decide_false by (rewrite ?Hd; intros [? ?]; congruence);
       cbn; rewrite ?Hd; cbn.
  all: try destruct (Z.of_nat (String.length content) =? 1024)%Z; cbn.
  all: try destruct (n =? 1024)%Z; cbn.
  all: rewrite ?bool_decide_true by eauto;
       rewrite ?bool_decide_false by (rewrite ?Hd; intros [? ?]; congruence);
       cbn; rewrite ?Hd; cbn.
  all: rewrite ?Hcalls; cbn; split; [reflexivity|]; try reflexivity; eauto.
Qed.

(** The sample executable [obedient] keeps the contract of scenario B. *)
Lemma obedient_leaves_other_destinations : leaves_other_destinations obedient.
Proof.
  intros url dest other dir files e _ Hne Hnone. cbn.
  rewrite lookup_insert_ne; [done|].
  intros Heq. apply app_inv_head in Heq. congruence.
Qed.

(** ** The claims about the harness *)

(** C4: a failing input.  With an executable at [bin/falcon-cli] that
    cannot be started, scenarios A and B catch the error and give the
    verdict [False], while scenario C raises it from its unguarded
    [subprocess.Popen]: the exception passes through [main] and the
    process ends with a traceback after the banner of scenario C. *)
Theorem C4_unguarded_launch_ends_harness :
  let e := OSError "[Errno 13] Permission denied: './bin/falcon-cli'" in
  (test_http_download unlaunchable build_dir).1 = Ret false
  /\ (test_multiple_downloads unlaunchable build_dir).1 = Ret false
  /\ (test_resume unlaunchable build_dir).1 = Raise e
  /\ (script unlaunchable project_root).1 = Crashed e
  /\ stdout (script unlaunchable project_root).2
     = ["=== Falcon Downloader Integration Tests ===" +:+ nl;
        "Testing HTTP download...";
        "❌ Error: [Errno 13] Permission denied: './bin/falcon-cli'";
        nl +:+ "Testing multiple downloads...";
        "  Downloading uuid.json..."; "    ❌ uuid.json";
        "  Downloading ip.json..."; "    ❌ ip.json";
        "  Downloading user-agent.json..."; "    ❌ user-agent.json";
        nl +:+ "  Results: 0/3 downloads successful";
        nl +:+ "Testing resume functionality..."].
Proof. cbn zeta. repeat split; vm_compute; reflexivity. Qed.

(** C8: when a scenario returns, whatever its verdict, no file is left
    at its destination: [test_download.json] after scenario A,
    [resume_test.bin] after scenario C, and in scenario B the item's
    file after each item and, for an executable that does not create
    another item's file, all three files at the end. *)
Theorem C8_destinations_removed_on_return
    {Env : Type} (D : Downloader Env) (w w' : World Env) (b : bool) :
  (test_http_download D w = (Ret b, w') ->
   fs w' !! resolve w' "test_download.json" = None)
  /\ (test_resume D w = (Ret b, w') ->
      fs w' !! resolve w' "resume_test.bin" = None)
  /\ (forall (n n' : Z) (url filename : string),
        download_one D n (url, filename) w = (Ret n', w') ->
        fs w' !! resolve w' filename = None)
  /\ (leaves_other_destinations D ->
      test_multiple_downloads D w = (Ret b, w') ->
      forall filename : string,
        In filename (snd <$> urls) -> fs w' !! resolve w' filename = None).
Proof.
  split; [|split; [|split]].
  - intros H. by apply test_http_download_ret in H as (_ & _ & _ & _ & H).
  - intros H. by apply test_resume_ret in H as (_ & _ & _ & H).
  - intros n n' url filename H.
    by apply download_one_ret in H as (_ & _ & _ & _ & H & _).
  - intros Hkeep H filename Hin.
    apply test_multiple_downloads_ret in H as (_ & _ & H3 & H12).
    destruct (H12 Hkeep) as [H1 H2].
    cbn in Hin. destruct Hin as [<-|[<-|[<-|[]]]]; done.
Qed.

(** The sample executable in the build directory: scenario A passes,
    scenario B passes, and neither leaves a file behind. *)
Lemma C8_destinations_removed_witness :
  let wa := (test_http_download obedient build_dir).2 in
  let wb := (test_multiple_downloads obedient build_dir).2 in
  fs wa !! resolve wa "test_download.json" = None
  /\ (forall filename : string,
        In filename (snd <$> urls) -> fs wb !! resolve wb filename = None).
Proof.
  cbn zeta. split.
  - apply (proj1 (C8_destinations_removed_on_return obedient build_dir
                    (test_http_download obedient build_dir).2 true)).
    vm_compute. reflexivity.
  - apply (proj2 (proj2 (proj2 (C8_destinations_removed_on_return obedient build_dir
                    (test_multiple_downloads obedient build_dir).2 true)))).
    + exact obedient_leaves_other_destinations.
    + vm_compute. reflexivity.
Defined.

(** C9: the runner returns exactly when scenario A, then scenario B
    from the world A left, then scenario C from the world B left, each
    return a verdict, whatever the verdicts; the six launches happen in
    this order; the summary prints one line per scenario with its own
    verdict; and the exit status is 0 when the three verdicts are true
    and 1 otherwise. *)
Theorem C9_all_scenarios_run_in_order
    {Env : Type} (D : Downloader Env) (w w' : World Env) (code : Z) :
  run_tests D w = (Ret code, w') <->
  exists (a b c : bool) (wa wb wc : World Env),
    test_http_download D w = (Ret a, wa)
    /\ test_multiple_downloads D wa = (Ret b, wb)
    /\ test_resume D wb = (Ret c, wc)
    /\ calls wc
       = (calls w ++
          [["./bin/falcon-cli"; "https://httpbin.org/json"; "-o"; "test_download.json"];
           ["./bin/falcon-cli"; "https://httpbin.org/uuid"; "-o"; "uuid.json"];
           ["./bin/falcon-cli"; "https://httpbin.org/ip"; "-o"; "ip.json"];
           ["./bin/falcon-cli"; "https://httpbin.org/user-agent"; "-o";
            "user-agent.json"];
           ["./bin/falcon-cli"; "https://httpbin.org/bytes/1024"; "-o";
            "resume_test.bin"];
           ["./bin/falcon-cli"; "https://httpbin.org/bytes/1024"; "-o";
            "resume_test.bin"]])%list
    /\ w' = mkWorld (cwd wc) (fs wc) (env wc)
              (stdout wc ++
                 [nl +:+ "=== Test Summary ===";
                  ljust 25 "Basic HTTP Download" +:+ " "
                    +:+ (if a then "✅ PASS" else "❌ FAIL");
                  ljust 25 "Multiple Downloads" +:+ " "
                    +:+ (if b then "✅ PASS" else "❌ FAIL");
                  ljust 25 "Resume Functionality" +:+ " "
                    +:+ (if c then "✅ PASS" else "❌ FAIL");
                  nl +:+ "Overall: " +:+ str_int (Z.b2z a + Z.b2z b + Z.b2z c)
                     +:+ "/3 tests passed";
                  if a && b && c then nl +:+ "🎉 All tests passed!"
                  else nl +:+ "⚠️  Some tests failed"])%list
              (calls wc)
    /\ code = (if a && b && c then 0 else 1)
    /\ (code = 0 <-> a = true /\ b = true /\ c = true).
Proof.
  unfold run_tests. split.
  - intros H.
    apply bind_ret_inv in H as (a & wa & Ha & H).
    apply bind_ret_inv in H as (b & wb & Hb & H).
    apply bind_ret_inv in H as (c & wc & Hc & H).
    cbn [app] in H. rewrite summary_three in H. injection H as <- <-.
    exists a, b, c, wa, wb, wc.
    pose proof (test_http_download_ret D _ _ _ Ha) as (_ & Hka & _).
    pose proof (test_multiple_downloads_ret D _ _ _ Hb) as (_ & Hkb & _).
    pose proof (test_resume_ret D _ _ _ Hc) as (_ & _ & Hkc & _).
    cbn zeta in Hka, Hkc.
    repeat split; try done.
    + rewrite Hkc, Hkb, Hka, <- !app_assoc. done.
    + destruct a, b, c; done.
    + destruct a, b, c; done.
    + destruct a, b, c; done.
    + by intros (-> & -> & ->).
  - intros (a & b & c & wa & wb & wc & Ha & Hb & Hc & _ & -> & -> & _).
    rewrite (bind_ret_intro _ _ _ _ _ Ha), (bind_ret_intro _ _ _ _ _ Hb),
      (bind_ret_intro _ _ _ _ _ Hc).
    cbn [app]. by rewrite summary_three.
Qed.

(** With the first scenario's source down, scenario A fails, scenarios B
    and C still run and pass, and the exit status is 1. *)
Lemma C9_all_scenarios_run_witness :
  exists (wa wb wc : World unit),
    test_http_download first_source_down build_dir = (Ret false, wa)
    /\ test_multiple_downloads first_source_down wa = (Ret true, wb)
    /\ test_resume first_source_down wb = (Ret true, wc)
    /\ (run_tests first_source_down build_dir).1 = Ret 1.
Proof.
  destruct (proj1 (C9_all_scenarios_run_in_order first_source_down build_dir
                     (run_tests first_source_down build_dir).2 1))
    as (a & b & c & wa & wb & wc & Ha & Hb & Hc & _ & _ & _ & _).
  { vm_compute. reflexivity. }
  exists wa, wb, wc.
  assert (Ea : a = false).
  { apply (f_equal fst) in Ha. vm_compute in Ha. by injection Ha. }
  subst a.
  assert (Ewa : wa = (test_http_download first_source_down build_dir).2)
    by (by rewrite Ha).
  assert (Eb : b = true).
  { rewrite Ewa in Hb. apply (f_equal fst) in Hb. vm_compute in Hb. by injection Hb. }
  subst b.
  assert (Ewb : wb = (test_multiple_downloads first_source_down wa).2)
    by (by rewrite Hb).
  assert (Ec : c = true).
  { rewrite Ewb, Ewa in Hc. apply (f_equal fst) in Hc. vm_compute in Hc.
    by injection Hc. }
  subst c.
  repeat split; done.
Defined.

End HarnessFacts.
